(** * FitTrackClient: the provider layer of [src/services/apiService.ts]

    A shallow embedding of the [APIService] class: the configuration
    check of [checkATSFormat] and [adaptCVToJob], the two provider
    transports, the response normalisers [parseATSResponse] and
    [parseAdaptationResponse], and the LaTeX renderer
    [generateDefaultLaTeX].

    Conventions of the embedding.
    - A JavaScript string is a Rocq [string] holding, for every UTF-16
      code unit, its bytes in the UTF-8 scheme (ASCII text is itself).
      Every string operation of the service (replacing an ASCII
      character, splitting on an ASCII separator, concatenation, the
      brace regular expression) acts on ASCII code units only, and
      bytes of a longer sequence are all above 127.
    - TypeScript types are erased at run time, so the records returned
      by the normalisers hold run-time values ([JSValue]), not the
      declared [boolean], [number] and [string[]].
    - A JavaScript number is a binary64 value, a [spec_float].
    - An [async] method is run to completion: a rejected promise is an
      abrupt completion [Throw]. *)

From Stdlib Require Import String Ascii List ZArith NArith Bool Lia SpecFloat.
Import ListNotations.

Local Open Scope string_scope.

(** ** Characters and strings *)

Definition dq : string := String (ascii_of_nat 34) EmptyString.
Definition nl : string := String (ascii_of_nat 10) EmptyString.

(** [q s] is [s] between double quotes. *)
Definition q (s : string) : string := dq ++ s ++ dq.

(** Lines joined by line feeds, as the lines of a template literal. *)
Definition unlines (ls : list string) : string := String.concat nl ls.

Definition backslash : ascii := ascii_of_nat 92.

Definition code (c : ascii) : N := N_of_ascii c.

Definition is_char (k : N) (c : ascii) : bool := N.eqb (code c) k.

Definition in_range (lo hi : N) (c : ascii) : bool :=
  N.leb lo (code c) && N.leb (code c) hi.

(** ** Run-time values *)

#[local] Set Warnings "-register-all".

Inductive JSValue : Type :=
| JUndefined
| JNull
| JBool (b : bool)
| JNumber (n : spec_float)
| JString (s : string)
| JArray (elements : list JSValue)
| JObject (members : list (string * JSValue)).

(** *** Numbers: binary64, round to nearest even *)

Definition prec64 : Z := 53.
Definition emax64 : Z := 1024.

(** The binary64 value nearest to [p / q]. *)
Definition binary64_of_ratio (sign : bool) (p q : positive) : spec_float :=
  let '(mz, ez, lz) := SFdiv_core_binary prec64 emax64 (Zpos p) 0 (Zpos q) 0 in
  binary_round_aux prec64 emax64 sign mz ez lz.

(** The binary64 value of the decimal numeral [m * 10 ^ e10]. *)
Definition decimal (sign : bool) (m : N) (e10 : Z) : spec_float :=
  match m with
  | N0 => S754_zero sign
  | Npos p =>
      match e10 with
      | Zneg k => binary64_of_ratio sign p (Pos.pow 10 k)
      | Z0 => binary64_of_ratio sign p 1
      | Zpos k => binary64_of_ratio sign (p * Pos.pow 10 k) 1
      end
  end.

Definition number_of_Z (z : Z) : spec_float :=
  match z with
  | Z0 => S754_zero false
  | Zpos p => decimal false (Npos p) 0
  | Zneg p => decimal true (Npos p) 0
  end.

Definition num (z : Z) : JSValue := JNumber (number_of_Z z).

(** [0 <= n <= 100] on binary64 values (false for NaN and infinities). *)
Definition within_0_100 (n : spec_float) : bool :=
  SFleb (number_of_Z 0) n && SFleb n (number_of_Z 100).

(** *** ToBoolean, [||] and [??] *)

Definition ToBoolean (v : JSValue) : bool :=
  match v with
  | JUndefined | JNull => false
  | JBool b => b
  | JNumber (S754_zero _) | JNumber S754_nan => false
  | JNumber _ => true
  | JString s => negb (String.eqb s "")
  | JArray _ | JObject _ => true
  end.

(** [a || b] when evaluating [b] has no effect. *)
Definition or_else (a b : JSValue) : JSValue :=
  if ToBoolean a then a else b.

Definition is_nullish (v : JSValue) : bool :=
  match v with
  | JUndefined | JNull => true
  | _ => false
  end.

(** [a ?? b] *)
Definition nullish_coalesce (a b : JSValue) : JSValue :=
  if is_nullish a then b else a.

(** *** Own properties of a decoded object *)

(** The value of the last member named [k]: a repeated name in a JSON
    text overwrites the earlier value. *)
Fixpoint lookup (k : string) (members : list (string * JSValue))
  : option JSValue :=
  match members with
  | [] => None
  | (k', v) :: rest =>
      match lookup k rest with
      | Some v' => Some v'
      | None => if String.eqb k' k then Some v else None
      end
  end.

(** [o.name] on a decoded object whose members are [members]. *)
Definition own (members : list (string * JSValue)) (name : string) : JSValue :=
  match lookup name members with
  | Some v => v
  | None => JUndefined
  end.

(** ** JSON.parse *)

Module JSON.

Inductive token : Type :=
| TLBrace | TRBrace | TLBracket | TRBracket | TColon | TComma
| TString (s : string)
| TNumber (n : spec_float)
| TTrue | TFalse | TNull.

(** *** Number lexemes *)

Definition digit_of (c : ascii) : option N :=
  if in_range 48 57 c then Some (code c - 48)%N else None.

(** Leading decimal digits of [s]: their value appended to [acc], how
    many there were, and the rest. *)
Fixpoint take_digits (acc : N) (count : nat) (s : list ascii)
  : N * nat * list ascii :=
  match s with
  | [] => (acc, count, [])
  | c :: s' =>
      match digit_of c with
      | Some d => take_digits (acc * 10 + d)%N (S count) s'
      | None => (acc, count, s)
      end
  end.

(** [int]: a single [0], or a non-zero digit followed by digits. *)
Definition take_int (s : list ascii) : option (N * list ascii) :=
  match s with
  | [] => None
  | c :: s' =>
      match digit_of c with
      | None => None
      | Some 0%N => Some (0%N, s')
      | Some d => let '(m, _, rest) := take_digits d 1 s' in Some (m, rest)
      end
  end.

(** [frac]: nothing, or a dot followed by at least one digit. *)
Definition take_frac (m : N) (s : list ascii) : option (N * nat * list ascii) :=
  match s with
  | c :: s' =>
      if is_char 46 c then
        match take_digits m 0 s' with
        | (_, O, _) => None
        | r => Some r
        end
      else Some (m, O, s)
  | [] => Some (m, O, s)
  end.

(** [exp]: nothing, or [e] or [E], an optional sign, at least one digit. *)
Definition take_exp (s : list ascii) : option (Z * list ascii) :=
  match s with
  | c :: s' =>
      if is_char 101 c || is_char 69 c then
        let '(neg, s'') :=
          match s' with
          | d :: t =>
              if is_char 45 d then (true, t)
              else if is_char 43 d then (false, t)
              else (false, s')
          | [] => (false, s')
          end in
        match take_digits 0 0 s'' with
        | (_, O, _) => None
        | (e, _, rest) =>
            Some (if neg then (- Z.of_N e)%Z else Z.of_N e, rest)
        end
      else Some (0%Z, s)
  | [] => Some (0%Z, s)
  end.

Definition number_of_lexeme (s : list ascii) : option spec_float :=
  let '(sign, s1) :=
    match s with
    | c :: t => if is_char 45 c then (true, t) else (false, s)
    | [] => (false, s)
    end in
  match take_int s1 with
  | None => None
  | Some (i, s2) =>
      match take_frac i s2 with
      | None => None
      | Some (m, fraclen, s3) =>
          match take_exp s3 with
          | Some (e, []) => Some (decimal sign m (e - Z.of_nat fraclen))
          | _ => None
          end
      end
  end.

(** *** Strings *)

Definition hex_of (c : ascii) : option N :=
  if in_range 48 57 c then Some (code c - 48)%N
  else if in_range 97 102 c then Some (code c - 87)%N
  else if in_range 65 70 c then Some (code c - 55)%N
  else None.

(** The bytes of one UTF-16 code unit. *)
Definition bytes_of_unit (u : N) : list ascii :=
  if (u <? 128)%N then [ascii_of_N u]
  else if (u <? 2048)%N then
    [ascii_of_N (192 + u / 64); ascii_of_N (128 + u mod 64)]
  else
    [ascii_of_N (224 + u / 4096); ascii_of_N (128 + (u / 64) mod 64);
     ascii_of_N (128 + u mod 64)].

Definition unit_of_hex (hs : list N) : N :=
  fold_left (fun acc h => (acc * 16 + h)%N) hs 0%N.

(** *** The lexer, one character at a time *)

Inductive lex_mode : Type :=
| LIdle
| LWord (rev_acc : list ascii)
| LNumber (rev_acc : list ascii)
| LString (rev_acc : list ascii)
| LEscape (rev_acc : list ascii)
| LUnicode (rev_acc : list ascii) (hex : list N).

Definition is_ws (c : ascii) : bool :=
  is_char 9 c || is_char 10 c || is_char 13 c || is_char 32 c.

Definition punctuator (c : ascii) : option token :=
  if is_char 123 c then Some TLBrace
  else if is_char 125 c then Some TRBrace
  else if is_char 91 c then Some TLBracket
  else if is_char 93 c then Some TRBracket
  else if is_char 58 c then Some TColon
  else if is_char 44 c then Some TComma
  else None.

Definition is_lower (c : ascii) : bool := in_range 97 122 c.

(** Characters of a number lexeme: digits, [-], [+], [.], [e], [E]. *)
Definition is_number_char (c : ascii) : bool :=
  in_range 48 57 c || is_char 45 c || is_char 43 c || is_char 46 c
  || is_char 101 c || is_char 69 c.

Definition word_token (w : list ascii) : option token :=
  let s := string_of_list_ascii w in
  if String.eqb s "true" then Some TTrue
  else if String.eqb s "false" then Some TFalse
  else if String.eqb s "null" then Some TNull
  else None.

Definition number_token (w : list ascii) : option token :=
  option_map TNumber (number_of_lexeme w).

Definition lex_idle (c : ascii) : option (lex_mode * list token) :=
  if is_ws c then Some (LIdle, [])
  else
    match punctuator c with
    | Some t => Some (LIdle, [t])
    | None =>
        if is_char 34 c then Some (LString [], [])
        else if in_range 48 57 c || is_char 45 c then Some (LNumber [c], [])
        else if is_lower c then Some (LWord [c], [])
        else None
    end.

(** A word or number ends at the first character that cannot extend it;
    that character is then read in the idle mode. *)
Definition flush_then (t : option token) (c : ascii)
  : option (lex_mode * list token) :=
  match t, lex_idle c with
  | Some t, Some (m, ts) => Some (m, t :: ts)
  | _, _ => None
  end.

Definition lex_escape (acc : list ascii) (c : ascii)
  : option (lex_mode * list token) :=
  if is_char 34 c || is_char 92 c || is_char 47 c then Some (LString (c :: acc), [])
  else if is_char 98 c then Some (LString (ascii_of_N 8 :: acc), [])
  else if is_char 102 c then Some (LString (ascii_of_N 12 :: acc), [])
  else if is_char 110 c then Some (LString (ascii_of_N 10 :: acc), [])
  else if is_char 114 c then Some (LString (ascii_of_N 13 :: acc), [])
  else if is_char 116 c then Some (LString (ascii_of_N 9 :: acc), [])
  else if is_char 117 c then Some (LUnicode acc [], [])
  else None.

Definition lex_step (m : lex_mode) (c : ascii)
  : option (lex_mode * list token) :=
  match m with
  | LIdle => lex_idle c
  | LWord acc =>
      if is_lower c then Some (LWord (c :: acc), [])
      else flush_then (word_token (rev acc)) c
  | LNumber acc =>
      if is_number_char c then Some (LNumber (c :: acc), [])
      else flush_then (number_token (rev acc)) c
  | LString acc =>
      if is_char 34 c then
        Some (LIdle, [TString (string_of_list_ascii (rev acc))])
      else if is_char 92 c then Some (LEscape acc, [])
      else if (code c <? 32)%N then None
      else Some (LString (c :: acc), [])
  | LEscape acc => lex_escape acc c
  | LUnicode acc hs =>
      match hex_of c with
      | None => None
      | Some h =>
          let hs' := (hs ++ [h])%list in
          if Nat.eqb (length hs') 4 then
            Some (LString (rev (bytes_of_unit (unit_of_hex hs')) ++ acc)%list, [])
          else Some (LUnicode acc hs', [])
      end
  end.

Definition lex_end (m : lex_mode) : option (list token) :=
  match m with
  | LIdle => Some []
  | LWord acc => option_map (fun t => [t]) (word_token (rev acc))
  | LNumber acc => option_map (fun t => [t]) (number_token (rev acc))
  | LString _ | LEscape _ | LUnicode _ _ => None
  end.

Fixpoint lex (m : lex_mode) (s : string) : option (list token) :=
  match s with
  | EmptyString => lex_end m
  | String c s' =>
      match lex_step m c with
      | None => None
      | Some (m', ts) => option_map (app ts) (lex m' s')
      end
  end.

(** *** The grammar, one token at a time, with a stack of open
    containers *)

Inductive frame : Type :=
| FArray (rev_elements : list JSValue)
| FObject (rev_members : list (string * JSValue)) (key : option string).

Inductive expect : Type :=
| EValue            (* a value *)
| EArrayFirst       (* after an opening bracket: a value or the closing bracket *)
| EObjectFirst      (* after an opening brace: a name or the closing brace *)
| EName             (* after a comma in an object: a name *)
| EColon            (* after a name *)
| EAfter            (* after a value in a container: a comma or the closing *)
| EDone (v : JSValue).

(** A complete value goes to the innermost open container, or is the
    result. *)
Definition deliver (v : JSValue) (stack : list frame)
  : option (expect * list frame) :=
  match stack with
  | [] => Some (EDone v, [])
  | FArray es :: rest => Some (EAfter, FArray (v :: es) :: rest)
  | FObject ms (Some k) :: rest => Some (EAfter, FObject ((k, v) :: ms) None :: rest)
  | FObject _ None :: _ => None
  end.

Definition start_value (t : token) (stack : list frame)
  : option (expect * list frame) :=
  match t with
  | TLBrace => Some (EObjectFirst, FObject [] None :: stack)
  | TLBracket => Some (EArrayFirst, FArray [] :: stack)
  | TString s => deliver (JString s) stack
  | TNumber n => deliver (JNumber n) stack
  | TTrue => deliver (JBool true) stack
  | TFalse => deliver (JBool false) stack
  | TNull => deliver JNull stack
  | TRBrace | TRBracket | TColon | TComma => None
  end.

Definition close_array (stack : list frame) : option (expect * list frame) :=
  match stack with
  | FArray es :: rest => deliver (JArray (rev es)) rest
  | _ => None
  end.

(** The members of a decoded object, from the members of the text in
    their order: a repeated name keeps its first place and takes the
    last value; the names that are array indices (canonical numerals up
    to 2^32 - 2) come first, in ascending order, and the other names
    follow in the order of the text. *)
Definition index_of (k : string) : option N :=
  match list_ascii_of_string k with
  | [] => None
  | c :: rest =>
      match digit_of c with
      | None => None
      | Some 0%N => match rest with [] => Some 0%N | _ :: _ => None end
      | Some d =>
          match take_digits d 1 rest with
          | (n, _, []) => if (n <=? 4294967294)%N then Some n else None
          | (_, _, _ :: _) => None
          end
      end
  end.

Fixpoint put (k : string) (v : JSValue) (ms : list (string * JSValue))
  : list (string * JSValue) :=
  match ms with
  | [] => [(k, v)]
  | (k', v') :: rest =>
      if String.eqb k' k then (k', v) :: rest else (k', v') :: put k v rest
  end.

Fixpoint place (n : N) (m : string * JSValue)
  (sorted : list (N * (string * JSValue))) : list (N * (string * JSValue)) :=
  match sorted with
  | [] => [(n, m)]
  | (n', m') :: rest =>
      if (n <? n')%N then (n, m) :: sorted else (n', m') :: place n m rest
  end.

Definition indices_first (ms : list (string * JSValue)) : list (string * JSValue) :=
  let indexed :=
    fold_left
      (fun acc m =>
         match index_of (fst m) with
         | Some n => place n m acc
         | None => acc
         end)
      ms [] in
  (map snd indexed
   ++ filter (fun m => match index_of (fst m) with
                       | Some _ => false
                       | None => true
                       end) ms)%list.

Definition members_of (in_text : list (string * JSValue)) : list (string * JSValue) :=
  indices_first (fold_left (fun acc m => put (fst m) (snd m) acc) in_text []).

Definition close_object (stack : list frame) : option (expect * list frame) :=
  match stack with
  | FObject ms None :: rest => deliver (JObject (members_of (rev ms))) rest
  | _ => None
  end.

Definition name (t : token) (stack : list frame)
  : option (expect * list frame) :=
  match t, stack with
  | TString k, FObject ms None :: rest => Some (EColon, FObject ms (Some k) :: rest)
  | _, _ => None
  end.

Definition step (e : expect) (stack : list frame) (t : token)
  : option (expect * list frame) :=
  match e with
  | EValue => start_value t stack
  | EArrayFirst =>
      match t with
      | TRBracket => close_array stack
      | _ => start_value t stack
      end
  | EObjectFirst =>
      match t with
      | TRBrace => close_object stack
      | _ => name t stack
      end
  | EName => name t stack
  | EColon =>
      match t with
      | TColon => Some (EValue, stack)
      | _ => None
      end
  | EAfter =>
      match t, stack with
      | TComma, FArray _ :: _ => Some (EValue, stack)
      | TComma, FObject _ _ :: _ => Some (EName, stack)
      | TRBracket, _ => close_array stack
      | TRBrace, _ => close_object stack
      | _, _ => None
      end
  | EDone _ => None
  end.

Fixpoint run (e : expect) (stack : list frame) (ts : list token)
  : option JSValue :=
  match ts with
  | [] =>
      match e with
      | EDone v => Some v
      | _ => None
      end
  | t :: ts' =>
      match step e stack t with
      | Some (e', stack') => run e' stack' ts'
      | None => None
      end
  end.

(** [JSON.parse(text)]: the decoded value, or [None] where the built-in
    throws a [SyntaxError]. *)
Definition parse (text : string) : option JSValue :=
  match lex LIdle text with
  | Some ts => run EValue [] ts
  | None => None
  end.

End JSON.

(** ** String methods used by the service *)

(** *** [s.match(/\{[\s\S]*\}/)]

    The backtracking matcher of the pattern: an opening brace, then
    [[\s\S]*], which takes every character it can and gives them back
    one at a time until a closing brace follows. *)

(** [[\s\S]*\}] at the start of [s]: the star first consumes [c] and
    goes on; when that fails it stops, and [c] must be the closing
    brace. *)
Fixpoint star_then_rbrace (s : string) : option string :=
  match s with
  | EmptyString => None
  | String c s' =>
      match star_then_rbrace s' with
      | Some m => Some (String c m)
      | None => if is_char 125 c then Some (String c EmptyString) else None
      end
  end.

(** The leftmost match, element [0] of the result of [match]; [None] is
    the [null] result. *)
Fixpoint match_braces (s : string) : option string :=
  match s with
  | EmptyString => None
  | String c s' =>
      match (if is_char 123 c then star_then_rbrace s' else None) with
      | Some m => Some (String c m)
      | None => match_braces s'
      end
  end.

(** *** [s.replace(/c/g, by)] for a one-character pattern

    None of the replacement texts below holds a [$] pattern with a
    special meaning: the only [$] is the last character of its text. *)
Fixpoint replace_all (c : ascii) (by_ : string) (s : string) : string :=
  match s with
  | EmptyString => EmptyString
  | String x s' =>
      if Ascii.eqb x c then by_ ++ replace_all c by_ s'
      else String x (replace_all c by_ s')
  end.

(** *** [s.split(sep)] for a non-empty separator *)

(** [p] is found at the start of [s]. *)
Fixpoint starts_with (p s : string) : bool :=
  match p, s with
  | EmptyString, _ => true
  | String a p', String b s' => Ascii.eqb a b && starts_with p' s'
  | String _ _, EmptyString => false
  end.

(** [skip] characters of a separator just matched are still to be
    passed over; [cur] is the piece read so far. *)
Fixpoint split_from (sep : string) (skip : nat) (cur : string) (s : string)
  : list string :=
  match s with
  | EmptyString => [cur]
  | String c s' =>
      match skip with
      | S k => split_from sep k cur s'
      | O =>
          if starts_with sep s then
            cur :: split_from sep (String.length sep - 1) "" s'
          else split_from sep 0 (cur ++ String c "") s'
      end
  end.

Definition split (sep s : string) : list string := split_from sep 0 "" s.

(** [a.slice(0, n)] *)
Definition slice0 {A : Type} (n : nat) (a : list A) : list A := firstn n a.

(** [a.join(sep)] *)
Definition join (sep : string) (a : list string) : string := String.concat sep a.

(** ** The document renderer *)

(** The escaping step of [generateDefaultLaTeX]: ten global
    replacements, one after the other, each on the result of the one
    before. *)
Definition escapedText (cvText : string) : string :=
  let t := replace_all backslash "\textbackslash{}" cvText in
  let t := replace_all "{" "\{" t in
  let t := replace_all "}" "\}" t in
  let t := replace_all "#" "\#" t in
  let t := replace_all "$" "\$" t in
  let t := replace_all "%" "\%" t in
  let t := replace_all "&" "\&" t in
  let t := replace_all "^" "\textasciicircum{}" t in
  let t := replace_all "_" "\_" t in
  replace_all "~" "\textasciitilde{}" t.

(** The text placed under [\section{Professional Summary}]. In the
    source the separator of [split] is the literal ['\\n'] and that of
    [join] the literal ['\\n\\par'], written inside the substitution of
    the template: a backslash followed by [n], and a backslash, [n], a
    backslash and [par]. *)
Definition summary (escaped : string) : string :=
  join "\n\par" (slice0 3 (split "\n" escaped)).

Definition preamble : list string :=
  [ "\documentclass[11pt,a4paper,sans]{moderncv}";
    "\moderncvstyle{classic}";
    "\moderncvcolor{blue}";
    "";
    "\usepackage[utf8]{inputenc}";
    "\usepackage[scale=0.75]{geometry}";
    "\usepackage[T1]{fontenc}";
    "";
    "% Personal Data";
    "\name{Your}{Name}";
    "\address{Your Address}";
    "\phone[mobile]{+1~(234)~567~890}";
    "\email{your.email@example.com}";
    "";
    "\begin{document}";
    "\makecvtitle";
    "" ].

Definition closing : list string :=
  [ "";
    "\section{Education}";
    "% Add your education here";
    "";
    "\section{Skills}";
    "% Add your skills here";
    "";
    "\end{document}" ].

Definition generateDefaultLaTeX (cvText : string) : string :=
  let escaped := escapedText cvText in
  unlines
    (preamble
     ++ [ "\section{Professional Summary}";
          summary escaped;
          "";
          "\section{Experience}";
          escaped ]
     ++ closing)%list.

(** ** The service object, its effects and abrupt completions *)

Inductive APIProvider : Type := openai | claude.

Record APIProviderConfig : Type := {
  provider : APIProvider;
  apiKey : string;
  model : option string
}.

(** The three arguments of one [axios.post] call. *)
Record Request : Type := {
  url : string;
  body : JSValue;
  headers : list (string * string)
}.

Inductive exn : Type :=
| Error (message : string)                                (* [new Error(message)] *)
| TypeError                                               (* raised by the engine *)
| SyntaxError                                             (* raised by [JSON.parse] *)
| AxiosError (response_data : option JSValue) (message : string).

(** What a call does besides returning, in the order it happens. *)
Inductive Event : Type :=
| ConsoleError (label : string) (error : exn)
| AxiosPost (request : Request)
| RenderCall (cvText : JSValue).

(** [config] is the private field of the [apiService] singleton; [trace]
    records the events so far. *)
Record State : Type := {
  config : option APIProviderConfig;
  trace : list Event
}.

Inductive Completion (A : Type) : Type :=
| Normal (a : A)
| Throw (e : exn).

Arguments Normal {A} a.
Arguments Throw {A} e.

Definition M (A : Type) : Type := State -> Completion A * State.

Definition ret {A : Type} (a : A) : M A := fun st => (Normal a, st).

Definition throw {A : Type} (e : exn) : M A := fun st => (Throw e, st).

Definition bind {A B : Type} (m : M A) (k : A -> M B) : M B :=
  fun st =>
    match m st with
    | (Normal a, st') => k a st'
    | (Throw e, st') => (Throw e, st')
    end.

(** [try { body } catch (error) { handler }] *)
Definition try_catch {A : Type} (body : M A) (handler : exn -> M A) : M A :=
  fun st =>
    match body st with
    | (Normal a, st') => (Normal a, st')
    | (Throw e, st') => handler e st'
    end.

Definition log (e : Event) : M unit :=
  fun st => (Normal tt, {| config := config st; trace := trace st ++ [e] |}).

Definition this_config : M (option APIProviderConfig) :=
  fun st => (Normal (config st), st).

Declare Scope js_scope.
Delimit Scope js_scope with js.
Notation "x <- m ;; k" := (bind m (fun x => k))
  (at level 61, m at next level, right associativity) : js_scope.
Notation "m ;; k" := (bind m (fun _ => k))
  (at level 61, right associativity) : js_scope.
Local Open Scope js_scope.

(** How often the trace holds an event of a kind. *)
Definition is_post (e : Event) : bool :=
  match e with AxiosPost _ => true | _ => false end.

Definition is_render (e : Event) : bool :=
  match e with RenderCall _ => true | _ => false end.

Definition posts (st : State) : nat := length (filter is_post (trace st)).

Definition renders (st : State) : nat := length (filter is_render (trace st)).

(** *** Property access and built-ins *)

(** [o.name], for the names read by this service, none of which is a
    member of a built-in prototype: an own member of a decoded object,
    [undefined] on any other value, a [TypeError] on [null] and
    [undefined]. *)
Definition get (o : JSValue) (name : string) : M JSValue :=
  match o with
  | JUndefined | JNull => throw TypeError
  | JObject ms => ret (own ms name)
  | JBool _ | JNumber _ | JString _ | JArray _ => ret JUndefined
  end.

(** [response.match(/\{[\s\S]*\}/)]: only a string has the method. *)
Definition String_match (response : JSValue) : M (option string) :=
  match response with
  | JString s => ret (match_braces s)
  | _ => throw TypeError
  end.

Definition JSON_parse (text : string) : M JSValue :=
  match JSON.parse text with
  | Some v => ret v
  | None => throw SyntaxError
  end.

Definition console_error (label : string) (error : exn) : M unit :=
  log (ConsoleError label error).

(** A call [this.generateDefaultLaTeX(cvText)] with the run-time value
    of the argument: [cvText.replace] exists on strings only. *)
Definition call_generateDefaultLaTeX (cvText : JSValue) : M JSValue :=
  log (RenderCall cvText) ;;
  match cvText with
  | JString s => ret (JString (generateDefaultLaTeX s))
  | _ => throw TypeError
  end.

(** ** The response normalisers *)

Record ATSFormatCheck : Type := {
  isATSFormat : JSValue;
  score : JSValue;
  issues : JSValue;
  suggestions : JSValue
}.

Record CVAdaptationResult : Type := {
  adaptedCV : JSValue;
  latexCode : JSValue;
  changes : JSValue;
  highlightedSkills : JSValue
}.

Definition parseATSResponse (response : JSValue) : M ATSFormatCheck :=
  try_catch
    (jsonMatch <- String_match response ;;
     match jsonMatch with
     | Some jsonMatch0 =>
         parsed <- JSON_parse jsonMatch0 ;;
         f1 <- get parsed "isATSFormat" ;;
         f2 <- get parsed "score" ;;
         f3 <- get parsed "issues" ;;
         f4 <- get parsed "suggestions" ;;
         ret {| isATSFormat := nullish_coalesce f1 (JBool false);
                score := nullish_coalesce f2 (num 0);
                issues := nullish_coalesce f3 (JArray []);
                suggestions := nullish_coalesce f4 (JArray []) |}
     | None => throw (Error "No JSON found in response")
     end)
    (fun error =>
       console_error "Error parsing ATS response:" error ;;
       ret {| isATSFormat := JBool false;
              score := num 0;
              issues := JArray [JString "Failed to parse API response"];
              suggestions := JArray [JString "Please check the API response format"] |}).

Definition parseAdaptationResponse (response : JSValue) : M CVAdaptationResult :=
  try_catch
    (jsonMatch <- String_match response ;;
     match jsonMatch with
     | Some jsonMatch0 =>
         parsed <- JSON_parse jsonMatch0 ;;
         f1 <- get parsed "adaptedCV" ;;
         f2 <- get parsed "latexCode" ;;
         latex <- (if ToBoolean f2 then ret f2
                   else (arg <- get parsed "adaptedCV" ;;
                         call_generateDefaultLaTeX (or_else arg (JString "")))) ;;
         f3 <- get parsed "changes" ;;
         f4 <- get parsed "highlightedSkills" ;;
         ret {| adaptedCV := or_else f1 (JString "");
                latexCode := latex;
                changes := or_else f3 (JArray []);
                highlightedSkills := or_else f4 (JArray []) |}
     | None => throw (Error "No JSON found in response")
     end)
    (fun error =>
       console_error "Error parsing adaptation response:" error ;;
       latex <- call_generateDefaultLaTeX (JString "") ;;
       ret {| adaptedCV := JString "";
              latexCode := latex;
              changes := JArray [JString "Failed to parse API response"];
              highlightedSkills := JArray [] |}).

(** ** The provider transports and the two operations *)

(** How one [axios.post] call ends: the promise resolves with a response
    whose [data] is the decoded body, or it rejects with an error that
    may carry the data of an error response. A request that never
    settles is not represented: what is said about the end of an
    operation is said of the runs whose request settles. *)
Inductive AxiosOutcome : Type :=
| Resolved (data : JSValue)
| Rejected (response_data : option JSValue) (message : string).

(** [o[0]] *)
Definition first_unit (s : string) : option string :=
  match s with
  | EmptyString => None
  | String c _ =>
      Some (substring 0 (if (code c <? 128)%N then 1
                         else if (code c <? 224)%N then 2 else 3) s)
  end.

Definition get_index0 (o : JSValue) : M JSValue :=
  match o with
  | JUndefined | JNull => throw TypeError
  | JArray xs => ret (nth 0 xs JUndefined)
  | JObject ms => ret (own ms "0")
  | JString s =>
      ret (match first_unit s with Some u => JString u | None => JUndefined end)
  | JBool _ | JNumber _ => ret JUndefined
  end.

(** [o?.name] *)
Definition get_optional (o : JSValue) (name : string) : JSValue :=
  match o with
  | JObject ms => own ms name
  | _ => JUndefined
  end.

(** [this.config.model || fallback] *)
Definition model_or (cfg : APIProviderConfig) (fallback : string) : string :=
  match model cfg with
  | Some m => if String.eqb m "" then fallback else m
  | None => fallback
  end.

Definition system_text : string :=
  "You are a professional CV/resume analyzer and adapter. Always respond with valid JSON.".

Definition ats_prompt (cvText : string) : string :=
  unlines
    [ "Analyze the following CV/resume text and determine if it's in ATS (Applicant Tracking System) format. ";
      "    ATS-friendly resumes should:";
      "    1. Use standard section headings (Experience, Education, Skills, etc.)";
      "    2. Avoid tables, columns, graphics, or complex formatting";
      "    3. Use simple, keyword-rich text";
      "    4. Have clear, chronological work history";
      "    5. Use standard fonts and formatting";
      "    ";
      "    CV Text:";
      "    " ++ cvText;
      "    ";
      "    Respond in JSON format with:";
      "    {";
      "      " ++ q "isATSFormat" ++ ": boolean,";
      "      " ++ q "score" ++ ": number (0-100),";
      "      " ++ q "issues" ++ ": [list of issues found],";
      "      " ++ q "suggestions" ++ ": [list of suggestions to improve ATS compatibility]";
      "    }" ].

Definition adaptation_prompt (cvText jobDescription : string) : string :=
  unlines
    [ "Compare the following CV with the job description and create an adapted version that highlights relevant skills and experiences.";
      "";
      "    Original CV:";
      "    " ++ cvText;
      "";
      "    Job Description:";
      "    " ++ jobDescription;
      "";
      "    Create an adapted CV that:";
      "    1. Highlights skills and experiences most relevant to the job";
      "    2. Reorders sections to emphasize relevant qualifications";
      "    3. Adds relevant keywords from the job description naturally";
      "    4. Maintains ATS-friendly format";
      "    5. Generates LaTeX code for the adapted CV";
      "";
      "    Respond in JSON format with:";
      "    {";
      "      " ++ q "adaptedCV" ++ ": " ++ q "the adapted CV text" ++ ",";
      "      " ++ q "latexCode" ++ ": " ++ q "complete LaTeX document code for the CV" ++ ",";
      "      " ++ q "changes" ++ ": [" ++ q "list of key changes made" ++ "],";
      "      " ++ q "highlightedSkills" ++ ": [" ++ q "list of skills that were highlighted" ++ "]";
      "    }" ].

Definition openai_request (cfg : APIProviderConfig) (prompt : string) : Request :=
  {| url := "https://api.openai.com/v1/chat/completions";
     body :=
       JObject
         [ ("model", JString (model_or cfg "gpt-4-turbo-preview"));
           ("messages",
            JArray
              [ JObject [("role", JString "system"); ("content", JString system_text)];
                JObject [("role", JString "user"); ("content", JString prompt)] ]);
           ("response_format", JObject [("type", JString "json_object")]);
           ("temperature", JNumber (decimal false 7 (-1))) ];
     headers :=
       [ ("Authorization", "Bearer " ++ apiKey cfg);
         ("Content-Type", "application/json") ] |}.

Definition claude_request (cfg : APIProviderConfig) (prompt : string) : Request :=
  {| url := "https://api.anthropic.com/v1/messages";
     body :=
       JObject
         [ ("model", JString (model_or cfg "claude-3-5-sonnet-20241022"));
           ("max_tokens", num 4096);
           ("messages",
            JArray [ JObject [("role", JString "user"); ("content", JString prompt)] ]);
           ("system", JString system_text) ];
     headers :=
       [ ("x-api-key", apiKey cfg);
         ("anthropic-version", "2023-06-01");
         ("Content-Type", "application/json") ] |}.

Definition not_set : exn := Error "API configuration not set".

Definition setConfig (c : APIProviderConfig) : M unit :=
  fun st => (Normal tt, {| config := Some c; trace := trace st |}).

Section Transport.

(** The network: how the request ends, given what happened before. *)
Variable network : list Event -> Request -> AxiosOutcome.

(** The message the engine gives a [TypeError] or [SyntaxError] it
    raises, and its rendering of a number in a template literal. *)
Variable native_message : exn -> string.
Variable Number_toString : spec_float -> string.

(** [await axios.post(url, body, { headers })], then [.data] of the
    response. *)
Definition axios_post (rq : Request) : M JSValue :=
  fun st =>
    let st' := {| config := config st; trace := trace st ++ [AxiosPost rq] |} in
    match network (trace st) rq with
    | Resolved data => (Normal data, st')
    | Rejected response_data message => (Throw (AxiosError response_data message), st')
    end.

Definition message_of (error : exn) : string :=
  match error with
  | Error m => m
  | AxiosError _ m => m
  | TypeError | SyntaxError => native_message error
  end.

(** The string given by a template literal for a value; [None] where
    the conversion throws a [TypeError]. A decoded object whose own
    members include [toString] has no callable conversion method left
    (the member is not a function, and the inherited [valueOf] returns
    the object itself); any other decoded object is converted by the
    inherited [toString]. An array is converted by [join], element by
    element. *)
Fixpoint ToString (v : JSValue) : option string :=
  match v with
  | JUndefined => Some "undefined"
  | JNull => Some "null"
  | JBool true => Some "true"
  | JBool false => Some "false"
  | JNumber n => Some (Number_toString n)
  | JString s => Some s
  | JArray xs =>
      option_map (String.concat ",")
        ((fix each (l : list JSValue) : option (list string) :=
            match l with
            | [] => Some []
            | x :: rest =>
                match (if is_nullish x then Some "" else ToString x), each rest with
                | Some s, Some ss => Some (s :: ss)
                | _, _ => None
                end
            end) xs)
  | JObject ms =>
      match lookup "toString" ms with
      | Some _ => None
      | None => Some "[object Object]"
      end
  end.

(** [error.response?.data?.error?.message || error.message] *)
Definition error_detail (error : exn) : JSValue :=
  let upstream :=
    match error with
    | AxiosError (Some data) _ => get_optional (get_optional data "error") "message"
    | _ => JUndefined
    end in
  or_else upstream (JString (message_of error)).

Definition callOpenAI (prompt : string) : M JSValue :=
  cfg <- this_config ;;
  match cfg with
  | None => throw not_set
  | Some cfg =>
      try_catch
        (data <- axios_post (openai_request cfg prompt) ;;
         choices <- get data "choices" ;;
         choice <- get_index0 choices ;;
         message <- get choice "message" ;;
         get message "content")
        (fun error =>
           match ToString (error_detail error) with
           | Some detail => throw (Error ("OpenAI API error: " ++ detail))
           | None => throw TypeError
           end)
  end.

Definition callClaude (prompt : string) : M JSValue :=
  cfg <- this_config ;;
  match cfg with
  | None => throw not_set
  | Some cfg =>
      try_catch
        (data <- axios_post (claude_request cfg prompt) ;;
         content <- get data "content" ;;
         block <- get_index0 content ;;
         get block "text")
        (fun error =>
           match ToString (error_detail error) with
           | Some detail => throw (Error ("Claude API error: " ++ detail))
           | None => throw TypeError
           end)
  end.

Definition callAPI (prompt : string) : M JSValue :=
  cfg <- this_config ;;
  match cfg with
  | None => throw not_set
  | Some cfg =>
      match provider cfg with
      | openai => callOpenAI prompt
      | claude => callClaude prompt
      end
  end.

Definition checkATSFormat (cvText : string) : M ATSFormatCheck :=
  cfg <- this_config ;;
  match cfg with
  | None => throw not_set
  | Some _ =>
      response <- callAPI (ats_prompt cvText) ;;
      parseATSResponse response
  end.

Definition adaptCVToJob (cvText jobDescription : string) : M CVAdaptationResult :=
  cfg <- this_config ;;
  match cfg with
  | None => throw not_set
  | Some _ =>
      response <- callAPI (adaptation_prompt cvText jobDescription) ;;
      parseAdaptationResponse response
  end.

(** *** Sequences of calls on the singleton *)

Inductive Call : Type :=
| CallSetConfig (c : APIProviderConfig)
| CallCheckATSFormat (cvText : string)
| CallAdaptCVToJob (cvText jobDescription : string).

Definition perform (st : State) (c : Call) : State :=
  match c with
  | CallSetConfig cfg => snd (setConfig cfg st)
  | CallCheckATSFormat cvText => snd (checkATSFormat cvText st)
  | CallAdaptCVToJob cvText jobDescription =>
      snd (adaptCVToJob cvText jobDescription st)
  end.

Definition perform_all (st : State) (calls : list Call) : State :=
  fold_left perform calls st.

End Transport.

(** ** Predicates used by the properties below *)

(** *** On the decoder's stack *)

(** The outermost open container is an object. *)
Definition rooted_in_object (stack : list JSON.frame) : Prop :=
  exists inner ms k, stack = (inner ++ [JSON.FObject ms k])%list.

Definition pending (e : JSON.expect) : Prop :=
  match e with JSON.EDone _ => False | _ => True end.

Definition object_open (st : JSON.expect * list JSON.frame) : Prop :=
  pending (fst st) /\ rooted_in_object (snd st).

Definition object_done (st : JSON.expect * list JSON.frame) : Prop :=
  snd st = [] /\ exists ms, fst st = JSON.EDone (JObject ms).

(** *** The candidate payload in the words of the specification

    Scan for the first opening brace and the last closing brace; the
    candidate is the text from the one to the other, both included. *)
Fixpoint first_index (k : N) (s : string) : option nat :=
  match s with
  | EmptyString => None
  | String c s' =>
      if is_char k c then Some O else option_map S (first_index k s')
  end.

Fixpoint last_index (k : N) (s : string) : option nat :=
  match s with
  | EmptyString => None
  | String c s' =>
      match last_index k s' with
      | Some j => Some (S j)
      | None => if is_char k c then Some O else None
      end
  end.

Definition first_to_last_brace (rawText : string) : option string :=
  match first_index 123 rawText, last_index 125 rawText with
  | Some i, Some j =>
      if Nat.ltb i j then Some (substring i (j - i + 1) rawText) else None
  | _, _ => None
  end.

(** *** Escaping in the words of the specification

    One pass from left to right in which each significant character is
    replaced by its escape sequence and every other character is kept;
    nothing that the pass writes is read again. *)
Definition escape_char (c : ascii) : string :=
  if Ascii.eqb c backslash then "\textbackslash{}"
  else if Ascii.eqb c "{" then "\{"
  else if Ascii.eqb c "}" then "\}"
  else if Ascii.eqb c "#" then "\#"
  else if Ascii.eqb c "$" then "\$"
  else if Ascii.eqb c "%" then "\%"
  else if Ascii.eqb c "&" then "\&"
  else if Ascii.eqb c "^" then "\textasciicircum{}"
  else if Ascii.eqb c "_" then "\_"
  else if Ascii.eqb c "~" then "\textasciitilde{}"
  else String c "".

Fixpoint single_pass (image : ascii -> string) (s : string) : string :=
  match s with
  | EmptyString => EmptyString
  | String c s' => image c ++ single_pass image s'
  end.

(** What the ten replacements of the source make of one character. *)
Definition escaped_char (c : ascii) : string := escapedText (String c "").

(** The summary in the words of the specification: the first three
    lines of the escaped text. *)
Definition first_three_lines (escaped : string) : string :=
  join nl (slice0 3 (split nl escaped)).

(** No backslash of [s] is followed by [n]. *)
Fixpoint no_backslash_n (s : string) : bool :=
  match s with
  | EmptyString => true
  | String _ s' => negb (starts_with "\n" s) && no_backslash_n s'
  end.

Fixpoint ends_with_backslash (s : string) : bool :=
  match s with
  | EmptyString => false
  | String c EmptyString => Ascii.eqb c backslash
  | String _ s' => ends_with_backslash s'
  end.

Fixpoint has_char (c : ascii) (s : string) : bool :=
  match s with
  | EmptyString => false
  | String x s' => Ascii.eqb x c || has_char c s'
  end.

(** *** Payloads, defaults and the fallback records *)

(** The state of the singleton when the module is loaded:
    [private config = null]. *)
Definition initial : State := {| config := None; trace := [] |}.

(** The payload extracted from a reply: the decoded candidate. *)
Definition payload (response : string) : option JSValue :=
  match match_braces response with
  | Some candidate => JSON.parse candidate
  | None => None
  end.

Definition falsy (v : JSValue) : bool := negb (ToBoolean v).

Definition is_string (v : JSValue) : bool :=
  match v with JString _ => true | _ => false end.

(** A field of the result: [default] when the member is absent or
    [missing] holds of it, the member itself otherwise. *)
Definition field_or (missing : JSValue -> bool)
  (members : list (string * JSValue)) (name : string) (default : JSValue)
  : JSValue :=
  match lookup name members with
  | None => default
  | Some v => if missing v then default else v
  end.

Definition ats_fallback : ATSFormatCheck :=
  {| isATSFormat := JBool false;
     score := num 0;
     issues := JArray [JString "Failed to parse API response"];
     suggestions := JArray [JString "Please check the API response format"] |}.

Definition adaptation_fallback : CVAdaptationResult :=
  {| adaptedCV := JString "";
     latexCode := JString (generateDefaultLaTeX "");
     changes := JArray [JString "Failed to parse API response"];
     highlightedSkills := JArray [] |}.

(** [0 <= v <= 100] for a run-time value. *)
Definition score_in_range (v : JSValue) : bool :=
  match v with
  | JNumber n => within_0_100 n
  | _ => false
  end.

(** *** How a computation treats the state *)

(** The completion does not depend on the state the call starts in. *)
Definition state_independent {A : Type} (m : M A) : Prop :=
  forall st1 st2, fst (m st1) = fst (m st2).

(** No run of [m] changes what [f] observes of the state. *)
Definition keeps {A X : Type} (f : State -> X) (m : M A) : Prop :=
  forall st, f (snd (m st)) = f st.

(** Every run of [m] makes exactly one transport call. *)
Definition posts_once {A : Type} (m : M A) : Prop :=
  forall st, posts (snd (m st)) = S (posts st).

(** An error raised by one of the two transports. *)
Definition provider_error (e : exn) : Prop :=
  exists detail,
    e = Error ("OpenAI API error: " ++ detail)
    \/ e = Error ("Claude API error: " ++ detail).

(** What an operation can throw once the configuration is set: an
    error of a transport, or the [TypeError] of a message that cannot
    be converted to a string. *)
Definition transport_error (e : exn) : Prop :=
  provider_error e \/ e = TypeError.

(** A completion that is not an abrupt one with an error outside [P]. *)
Definition throws_only {A : Type} (P : exn -> Prop) (c : Completion A) : Prop :=
  match c with
  | Normal _ => True
  | Throw e => P e
  end.

(** *** Replies used as examples *)

Definition reply_score_150 : string := "{" ++ q "score" ++ ": 150}".

Definition reply_score_minus_5 : string := "{" ++ q "score" ++ ": -5}".

(** The reply of the specification's scenario, as written there. *)
Definition reply_isCompliant : string :=
  "Sure! {" ++ q "isCompliant" ++ ": true, " ++ q "score" ++ ": 87, "
  ++ q "issues" ++ ": [], " ++ q "suggestions" ++ ": ["
  ++ q "Use bullet points" ++ "]}".

(** The same reply with the member name the service reads. *)
Definition reply_isATSFormat : string :=
  "Sure! {" ++ q "isATSFormat" ++ ": true, " ++ q "score" ++ ": 87, "
  ++ q "issues" ++ ": [], " ++ q "suggestions" ++ ": ["
  ++ q "Use bullet points" ++ "]}".

Definition reply_not_json : string := "not json at all".

Definition members_wrong_shapes : list (string * JSValue) :=
  [ ("isATSFormat", JNull); ("score", JString "high");
    ("issues", JString "none"); ("adaptedCV", JString "x");
    ("changes", num 0) ].

Definition reply_wrong_shapes : string :=
  "{" ++ q "isATSFormat" ++ ": null, " ++ q "score" ++ ": " ++ q "high" ++ ", "
  ++ q "issues" ++ ": " ++ q "none" ++ ", " ++ q "adaptedCV" ++ ": " ++ q "x"
  ++ ", " ++ q "changes" ++ ": 0}".

Definition reply_empty_document : string :=
  "{" ++ q "latexCode" ++ ": " ++ q "" ++ ", " ++ q "adaptedCV" ++ ": "
  ++ q "x" ++ "}".

Definition members_with_document : list (string * JSValue) :=
  [ ("latexCode", JString "\documentclass{article}");
    ("adaptedCV", JString "x") ].

Definition reply_with_document : string :=
  "{" ++ q "latexCode" ++ ": " ++ q "\\documentclass{article}" ++ ", "
  ++ q "adaptedCV" ++ ": " ++ q "x" ++ "}".

(** A text that is one backslash. *)
Definition one_backslash : string := String backslash EmptyString.

(** The adapted text of the specification's scenario. *)
Definition four_lines : string :=
  "Line1" ++ nl ++ "Line2" ++ nl ++ "Line3" ++ nl ++ "Line4".

(** A network that is down, and an engine with empty messages. *)
Definition offline (_ : list Event) (_ : Request) : AxiosOutcome :=
  Rejected None "Network Error".

Definition no_message (_ : exn) : string := "".

Definition no_digits (_ : spec_float) : string := "".

(** ** The callers in the application component

    The handlers of [App] that use the service, on the state of the
    component. A handler is run to completion on the state its closure
    captured, with no other event of the page in between; its calls of
    the state setters are applied in the order they are made. *)

Module App.

Inductive ViewMode : Type := upload | ats_check | adapt | results.

(** The nine [useState] cells. *)
Record UI : Type := {
  apiConfig : APIProviderConfig;
  cvText : string;
  jobDescription : string;
  viewMode : ViewMode;
  atsResult : option ATSFormatCheck;
  adaptationResult : option CVAdaptationResult;
  loading : bool;
  error : option string;
  showConfig : bool
}.

(** The initial values given to [useState]. *)
Definition initial_ui : UI :=
  {| apiConfig := {| provider := openai; apiKey := ""; model := Some "" |};
     cvText := "";
     jobDescription := "";
     viewMode := upload;
     atsResult := None;
     adaptationResult := None;
     loading := false;
     error := None;
     showConfig := true |}.

Definition setCvText (v : string) (ui : UI) : UI :=
  {| apiConfig := apiConfig ui; cvText := v;
     jobDescription := jobDescription ui; viewMode := viewMode ui;
     atsResult := atsResult ui; adaptationResult := adaptationResult ui;
     loading := loading ui; error := error ui; showConfig := showConfig ui |}.

Definition setViewMode (v : ViewMode) (ui : UI) : UI :=
  {| apiConfig := apiConfig ui; cvText := cvText ui;
     jobDescription := jobDescription ui; viewMode := v;
     atsResult := atsResult ui; adaptationResult := adaptationResult ui;
     loading := loading ui; error := error ui; showConfig := showConfig ui |}.

Definition setAtsResult (v : option ATSFormatCheck) (ui : UI) : UI :=
  {| apiConfig := apiConfig ui; cvText := cvText ui;
     jobDescription := jobDescription ui; viewMode := viewMode ui;
     atsResult := v; adaptationResult := adaptationResult ui;
     loading := loading ui; error := error ui; showConfig := showConfig ui |}.

Definition setAdaptationResult (v : option CVAdaptationResult) (ui : UI) : UI :=
  {| apiConfig := apiConfig ui; cvText := cvText ui;
     jobDescription := jobDescription ui; viewMode := viewMode ui;
     atsResult := atsResult ui; adaptationResult := v;
     loading := loading ui; error := error ui; showConfig := showConfig ui |}.

Definition setLoading (v : bool) (ui : UI) : UI :=
  {| apiConfig := apiConfig ui; cvText := cvText ui;
     jobDescription := jobDescription ui; viewMode := viewMode ui;
     atsResult := atsResult ui; adaptationResult := adaptationResult ui;
     loading := v; error := error ui; showConfig := showConfig ui |}.

Definition setError (v : option string) (ui : UI) : UI :=
  {| apiConfig := apiConfig ui; cvText := cvText ui;
     jobDescription := jobDescription ui; viewMode := viewMode ui;
     atsResult := atsResult ui; adaptationResult := adaptationResult ui;
     loading := loading ui; error := v; showConfig := showConfig ui |}.

Definition setShowConfig (v : bool) (ui : UI) : UI :=
  {| apiConfig := apiConfig ui; cvText := cvText ui;
     jobDescription := jobDescription ui; viewMode := viewMode ui;
     atsResult := atsResult ui; adaptationResult := adaptationResult ui;
     loading := loading ui; error := error ui; showConfig := v |}.

(** *** [!s.trim()]

    [trim] removes the white space and line terminators at both ends,
    so the result is empty exactly when [s] holds nothing else. The
    code units removed are U+0009 to U+000D, U+0020, U+00A0, U+1680,
    U+2000 to U+200A, U+2028, U+2029, U+202F, U+205F, U+3000 and
    U+FEFF, here with the bytes that stand for them. *)

Definition space1 (a : ascii) : bool :=
  in_range 9 13 a || is_char 32 a.

Definition space2 (a b : ascii) : bool :=
  is_char 194 a && is_char 160 b.

Definition space3 (a b c : ascii) : bool :=
  (is_char 225 a && is_char 154 b && is_char 128 c)
  || (is_char 226 a && is_char 128 b
      && (in_range 128 138 c || is_char 168 c || is_char 169 c || is_char 175 c))
  || (is_char 226 a && is_char 129 b && is_char 159 c)
  || (is_char 227 a && is_char 128 b && is_char 128 c)
  || (is_char 239 a && is_char 187 b && is_char 191 c).

Fixpoint blank (s : string) : bool :=
  match s with
  | EmptyString => true
  | String a r1 =>
      if space1 a then blank r1
      else
        match r1 with
        | EmptyString => false
        | String b r2 =>
            if space2 a b then blank r2
            else
              match r2 with
              | EmptyString => false
              | String c r3 => if space3 a b c then blank r3 else false
              end
        end
  end.

(** [handleFileUpload]: [file] is the text the reader delivers for the
    first chosen file, if there is one. *)
Definition handleFileUpload (file : option string) (ui : UI) : UI :=
  match file with
  | None => ui
  | Some text => setError None (setViewMode ats_check (setCvText text ui))
  end.

(** What [downloadLaTeX] hands to the browser: the name of the file and
    the part of the blob. *)
Definition downloadLaTeX (ui : UI) : option (string * JSValue) :=
  match adaptationResult ui with
  | None => None
  | Some r =>
      if ToBoolean (latexCode r) then Some ("adapted-cv.tex", latexCode r)
      else None
  end.

Definition downloadPDF (ui : UI) : UI * option (string * JSValue) :=
  match downloadLaTeX ui with
  | None => (ui, None)
  | Some d =>
      (setError
         (Some "PDF compilation requires backend service. LaTeX file downloaded instead.")
         ui,
       Some d)
  end.

(** The block of [main] whose condition holds, the one whose body is
    evaluated when the page is rendered; [None] when no condition
    holds, and then none of the four panels is rendered. Whether the
    body of the assessment or the results block can be rendered for a
    given result is not decided here. *)
Inductive Panel : Type :=
| upload_section
| ats_results
| adapt_section
| results_section.

Definition main_section (ui : UI) : option Panel :=
  match viewMode ui with
  | upload => Some upload_section
  | ats_check =>
      match atsResult ui with Some _ => Some ats_results | None => None end
  | adapt => Some adapt_section
  | results =>
      match adaptationResult ui with
      | Some _ => Some results_section
      | None => None
      end
  end.

Section Handlers.

Variable network : list Event -> Request -> AxiosOutcome.
Variable native_message : exn -> string.
Variable Number_toString : spec_float -> string.

(** [err.message || fallback] *)
Definition message_or (err : exn) (fallback : string) : string :=
  let m := message_of native_message err in
  if String.eqb m "" then fallback else m.

Definition handleCheckATS (ui : UI) (st : State) : UI * State :=
  if blank (cvText ui) then
    (setError (Some "Please upload a CV first") ui, st)
  else if String.eqb (apiKey (apiConfig ui)) "" then
    (setShowConfig true (setError (Some "Please configure your API key") ui), st)
  else
    let ui1 := setError None (setLoading true ui) in
    let st1 := snd (setConfig (apiConfig ui) st) in
    match checkATSFormat network native_message Number_toString (cvText ui) st1 with
    | (Normal result, st2) =>
        (setLoading false (setViewMode adapt (setAtsResult (Some result) ui1)), st2)
    | (Throw err, st2) =>
        (setLoading false
           (setError (Some (message_or err "Failed to check ATS format")) ui1),
         st2)
    end.

Definition handleAdaptCV (ui : UI) (st : State) : UI * State :=
  if blank (cvText ui) || blank (jobDescription ui) then
    (setError (Some "Please provide both CV and job description") ui, st)
  else if String.eqb (apiKey (apiConfig ui)) "" then
    (setShowConfig true (setError (Some "Please configure your API key") ui), st)
  else
    let ui1 := setError None (setLoading true ui) in
    let st1 := snd (setConfig (apiConfig ui) st) in
    match adaptCVToJob network native_message Number_toString
            (cvText ui) (jobDescription ui) st1 with
    | (Normal result, st2) =>
        (setLoading false
           (setViewMode results (setAdaptationResult (Some result) ui1)),
         st2)
    | (Throw err, st2) =>
        (setLoading false
           (setError (Some (message_or err "Failed to adapt CV")) ui1),
         st2)
    end.

End Handlers.

End App.

(** ** Predicates used by the further properties *)

Definition is_console (e : Event) : bool :=
  match e with ConsoleError _ _ => true | _ => false end.

Definition console_errors (st : State) : nat :=
  length (filter is_console (trace st)).

(** The requests made so far, in order. *)
Fixpoint requests (events : list Event) : list Request :=
  match events with
  | [] => []
  | AxiosPost rq :: rest => rq :: requests rest
  | _ :: rest => requests rest
  end.

(** The request for a configuration, by its provider. *)
Definition request_for (cfg : APIProviderConfig) (prompt : string) : Request :=
  match provider cfg with
  | openai => openai_request cfg prompt
  | claude => claude_request cfg prompt
  end.

Definition error_prefix (cfg : APIProviderConfig) : string :=
  match provider cfg with
  | openai => "OpenAI API error: "
  | claude => "Claude API error: "
  end.

(** *** Reading the reply out of a response, without effects

    [None] stands for the [TypeError] of a property read on [null] or
    [undefined]. *)
Definition member (name : string) (o : JSValue) : option JSValue :=
  match o with
  | JUndefined | JNull => None
  | JObject ms => Some (own ms name)
  | JBool _ | JNumber _ | JString _ | JArray _ => Some JUndefined
  end.

Definition element0 (o : JSValue) : option JSValue :=
  match o with
  | JUndefined | JNull => None
  | JArray xs => Some (nth 0 xs JUndefined)
  | JObject ms => Some (own ms "0")
  | JString s =>
      Some (match first_unit s with Some u => JString u | None => JUndefined end)
  | JBool _ | JNumber _ => Some JUndefined
  end.

Definition and_then {A B : Type} (o : option A) (f : A -> option B) : option B :=
  match o with
  | Some a => f a
  | None => None
  end.

(** [data.choices[0].message.content] and [data.content[0].text] *)
Definition reply_of (cfg : APIProviderConfig) (data : JSValue) : option JSValue :=
  match provider cfg with
  | openai =>
      and_then (and_then (and_then (member "choices" data) element0)
                  (member "message"))
        (member "content")
  | claude =>
      and_then (and_then (member "content" data) element0) (member "text")
  end.

(** *** Characters of an escaped text *)

(** Every [c] of [s] comes right after a backslash; [prev] says whether
    the character before [s] is one. *)
Fixpoint always_after_backslash (c : ascii) (prev : bool) (s : string) : bool :=
  match s with
  | EmptyString => true
  | String x s' =>
      (negb (Ascii.eqb x c) || prev)
      && always_after_backslash c (Ascii.eqb x backslash) s'
  end.

(** One of the ten characters that the escaping step replaces. *)
Definition is_special (c : ascii) : bool :=
  Ascii.eqb c backslash || Ascii.eqb c "{" || Ascii.eqb c "}"
  || Ascii.eqb c "#" || Ascii.eqb c "$" || Ascii.eqb c "%"
  || Ascii.eqb c "&" || Ascii.eqb c "^" || Ascii.eqb c "_"
  || Ascii.eqb c "~".

Fixpoint plain (s : string) : bool :=
  match s with
  | EmptyString => true
  | String c s' => negb (is_special c) && plain s'
  end.

Fixpoint drop (n : nat) (s : string) : string :=
  match n, s with
  | O, _ => s
  | S n', String _ s' => drop n' s'
  | S _, EmptyString => EmptyString
  end.

(** The character whose escaped form is at the front of [s], and what
    follows that form. *)
Definition read_escaped (s : string) : option (ascii * string) :=
  match s with
  | EmptyString => None
  | String x rest =>
      if negb (Ascii.eqb x backslash) then Some (x, rest)
      else if starts_with "textbackslash\{\}" rest then Some (backslash, drop 17 rest)
      else if starts_with "textasciicircum{}" rest then Some ("^"%char, drop 17 rest)
      else if starts_with "textasciitilde{}" rest then Some ("~"%char, drop 16 rest)
      else
        match rest with
        | EmptyString => None
        | String y rest' => Some (y, rest')
        end
  end.

(** *** Further replies used as examples *)

Definition members_numeric_text : list (string * JSValue) :=
  [ ("adaptedCV", num 5); ("changes", JArray [JString "reordered"]) ].

Definition reply_numeric_text : string :=
  "{" ++ q "adaptedCV" ++ ": 5, " ++ q "changes" ++ ": [" ++ q "reordered"
  ++ "]}".

Definition openai_config : APIProviderConfig :=
  {| provider := openai; apiKey := "sk-test"; model := None |}.

(** The singleton after [setConfig(openai_config)] on a fresh page. *)
Definition configured : State := snd (setConfig openai_config initial).

(** A chat completion whose first message has the given content, and a
    network that answers every request with it. *)
Definition completion (content : JSValue) : JSValue :=
  JObject
    [ ("choices",
       JArray [ JObject [("message", JObject [("content", content)])] ]) ].

Definition answering (content : JSValue) (_ : list Event) (_ : Request)
  : AxiosOutcome :=
  Resolved (completion content).

(** A network that answers every request with an empty object. *)
Definition answering_nothing (_ : list Event) (_ : Request) : AxiosOutcome :=
  Resolved (JObject []).

Definition requests_of (st : State) : list Request := requests (trace st).

(** What the transport returns, by how the request ends. *)
Definition transport_result (native_message : exn -> string)
  (Number_toString : spec_float -> string)
  (cfg : APIProviderConfig) (outcome : AxiosOutcome)
  : Completion JSValue :=
  match outcome with
  | Resolved data =>
      match reply_of cfg data with
      | Some v => Normal v
      | None => Throw (Error (error_prefix cfg ++ native_message TypeError))
      end
  | Rejected response_data message =>
      match ToString Number_toString
              (error_detail native_message (AxiosError response_data message)) with
      | Some detail => Throw (Error (error_prefix cfg ++ detail))
      | None => Throw TypeError
      end
  end.

(** A network that rejects every request with the error response
    [{ error: { message: "Incorrect API key provided" } }]. *)
Definition refusing (_ : list Event) (_ : Request) : AxiosOutcome :=
  Rejected
    (Some (JObject [("error", JObject [("message", JString "Incorrect API key provided")])]))
    "Request failed with status code 401".

(** The endpoint and the credential header of each provider. *)
Definition endpoint (p : APIProvider) : string :=
  match p with
  | openai => "https://api.openai.com/v1/chat/completions"
  | claude => "https://api.anthropic.com/v1/messages"
  end.

Definition credential_header (cfg : APIProviderConfig) : string * string :=
  match provider cfg with
  | openai => ("Authorization", "Bearer " ++ apiKey cfg)
  | claude => ("x-api-key", apiKey cfg)
  end.

(** The two guards of a handler let the call through. *)
Definition ready_to_check (ui : App.UI) : bool :=
  negb (App.blank (App.cvText ui))
  && negb (String.eqb (apiKey (App.apiConfig ui)) "").

Definition ready_to_adapt (ui : App.UI) : bool :=
  negb (App.blank (App.cvText ui) || App.blank (App.jobDescription ui))
  && negb (String.eqb (apiKey (App.apiConfig ui)) "").


(** *** The fixed text of the prompts around their arguments *)

Definition ats_head : string :=
  unlines
    [ "Analyze the following CV/resume text and determine if it's in ATS (Applicant Tracking System) format. ";
      "    ATS-friendly resumes should:";
      "    1. Use standard section headings (Experience, Education, Skills, etc.)";
      "    2. Avoid tables, columns, graphics, or complex formatting";
      "    3. Use simple, keyword-rich text";
      "    4. Have clear, chronological work history";
      "    5. Use standard fonts and formatting";
      "    ";
      "    CV Text:";
      "    " ].

Definition adaptation_head : string :=
  unlines
    [ "Compare the following CV with the job description and create an adapted version that highlights relevant skills and experiences.";
      "";
      "    Original CV:";
      "    " ].

Definition adaptation_middle : string :=
  unlines [ ""; ""; "    Job Description:"; "    " ].
(** * Properties *)

(** ** The decoder: a text that opens with a brace decodes to an object *)

Section DecoderFacts.
Import JSON.

Lemma rooted_push f stack :
  rooted_in_object stack -> rooted_in_object (f :: stack).
Proof.
  intros (inner & ms & k & ->). now exists (f :: inner), ms, k.
Qed.

Lemma rooted_replace f g stack :
  rooted_in_object (f :: stack) -> stack <> [] -> rooted_in_object (g :: stack).
Proof.
  intros (inner & ms & k & H) Hne.
  destruct inner as [|f' inner]; simpl in H; inversion H; subst.
  - contradiction.
  - now exists (g :: inner), ms, k.
Qed.

Lemma rooted_pop f g stack :
  rooted_in_object (f :: g :: stack) -> rooted_in_object (g :: stack).
Proof.
  intros (inner & ms & k & H).
  destruct inner as [|f' inner]; simpl in H; inversion H; subst.
  now exists inner, ms, k.
Qed.

Lemma rooted_single_array es : ~ rooted_in_object [FArray es].
Proof.
  intros (inner & ms & k & H).
  destruct inner as [|f [|g inner]]; simpl in H; inversion H.
Qed.

Lemma rooted_nonempty : ~ rooted_in_object [].
Proof. intros (inner & ms & k & H). destruct inner; discriminate. Qed.

Lemma deliver_rooted v stack st' :
  rooted_in_object stack ->
  deliver v stack = Some st' ->
  object_open st'.
Proof.
  intros Hr H.
  destruct stack as [|[es|ms [k|]] rest]; simpl in H; inversion H; subst.
  { now apply rooted_nonempty in Hr. }
  all: split; [exact I|]; simpl.
  - destruct rest as [|g rest].
    + now apply rooted_single_array in Hr.
    + eapply rooted_replace; eauto. discriminate.
  - destruct rest as [|g rest].
    + now exists [], ((k, v) :: ms), None.
    + eapply rooted_replace; eauto. discriminate.
Qed.

Lemma start_value_rooted t stack st' :
  rooted_in_object stack ->
  start_value t stack = Some st' ->
  object_open st'.
Proof.
  intros Hr H. destruct t; simpl in H; try discriminate;
    try (eapply deliver_rooted; eassumption);
    inversion H; subst; (split; [exact I | now apply rooted_push]).
Qed.

Lemma close_array_rooted stack st' :
  rooted_in_object stack ->
  close_array stack = Some st' ->
  object_open st'.
Proof.
  intros Hr H. destruct stack as [|[es|ms k] rest]; simpl in H; try discriminate.
  destruct rest as [|g rest].
  - now apply rooted_single_array in Hr.
  - apply rooted_pop in Hr. eapply deliver_rooted; eassumption.
Qed.

Lemma close_object_rooted stack st' :
  rooted_in_object stack ->
  close_object stack = Some st' ->
  object_open st' \/ object_done st'.
Proof.
  intros Hr H. destruct stack as [|[es|ms [k|]] rest]; simpl in H; try discriminate.
  destruct rest as [|g rest].
  - simpl in H. inversion H; subst. right. split; [reflexivity | simpl; eauto].
  - apply rooted_pop in Hr. left. eapply deliver_rooted; eassumption.
Qed.

Lemma name_rooted t stack st' :
  rooted_in_object stack ->
  name t stack = Some st' ->
  object_open st'.
Proof.
  intros Hr H. destruct t; simpl in H; try discriminate.
  destruct stack as [|[es|ms [k|]] rest]; try discriminate.
  inversion H; subst. split; [exact I|]. simpl. destruct rest as [|g rest].
  - now exists [], ms, (Some s).
  - eapply rooted_replace; eauto. discriminate.
Qed.

Lemma step_rooted e stack t st' :
  rooted_in_object stack ->
  step e stack t = Some st' ->
  object_open st' \/ object_done st'.
Proof.
  intros Hr H. destruct e; simpl in H.
  - left. eapply start_value_rooted; eassumption.
  - destruct t; try (left; eapply start_value_rooted; eassumption).
    left. eapply close_array_rooted; eassumption.
  - destruct t; try (left; eapply name_rooted; eassumption).
    eapply close_object_rooted; eassumption.
  - left. eapply name_rooted; eassumption.
  - destruct t; try discriminate. inversion H; subst. left. now split.
  - destruct t; try discriminate.
    + eapply close_object_rooted; eassumption.
    + left. eapply close_array_rooted; eassumption.
    + destruct stack as [|[es|ms k] rest]; try discriminate;
        inversion H; subst; left; now split.
  - discriminate.
Qed.

Lemma run_rooted ts : forall e stack v,
  object_open (e, stack) \/ object_done (e, stack) ->
  run e stack ts = Some v ->
  exists ms, v = JObject ms.
Proof.
  induction ts as [|t ts IH]; intros e stack v Hinv H; simpl in H.
  - destruct Hinv as [[Hp _] | [_ [ms He]]]; simpl in *.
    + destruct e; try discriminate. contradiction.
    + subst e. inversion H. eauto.
  - destruct (step e stack t) as [[e' stack']|] eqn:Hs; try discriminate.
    destruct Hinv as [[_ Hr] | [_ [ms He]]]; simpl in *.
    + eapply IH; [|eassumption]. eapply step_rooted; eassumption.
    + subst e. discriminate.
Qed.

(** A text whose first character is the opening brace decodes, when it
    decodes, to an object. *)
Lemma parse_brace_object (text : string) (v : JSValue) :
  parse (String "{" text) = Some v -> exists ms, v = JObject ms.
Proof.
  unfold parse. simpl.
  destruct (lex LIdle text) as [ts|]; simpl; try discriminate.
  apply run_rooted. left. split; [exact I|]. now exists [], [], None.
Qed.

End DecoderFacts.

(** ** Selecting the candidate payload *)

Lemma substring_0_0 s : substring 0 0 s = "".
Proof. now destruct s. Qed.

Lemma star_then_rbrace_last s :
  star_then_rbrace s =
  match last_index 125 s with
  | Some j => Some (substring 0 (S j) s)
  | None => None
  end.
Proof.
  induction s as [|c s IH]; simpl; [reflexivity|].
  rewrite IH. destruct (last_index 125 s) as [j|]; [reflexivity|].
  destruct (is_char 125 c); [|reflexivity].
  now rewrite substring_0_0.
Qed.

Lemma lbrace_not_rbrace c : is_char 123 c = true -> is_char 125 c = false.
Proof.
  unfold is_char. intros H. apply N.eqb_eq in H. rewrite H. reflexivity.
Qed.

Lemma first_to_last_none s :
  last_index 125 s = None -> first_to_last_brace s = None.
Proof.
  unfold first_to_last_brace. intros ->. now destruct (first_index 123 s).
Qed.

Lemma match_braces_first_to_last s : match_braces s = first_to_last_brace s.
Proof.
  induction s as [|c s IH]; [reflexivity|].
  simpl match_braces. destruct (is_char 123 c) eqn:Hl.
  - rewrite star_then_rbrace_last.
    unfold first_to_last_brace. simpl. rewrite Hl, (lbrace_not_rbrace c Hl).
    destruct (last_index 125 s) as [j|] eqn:Hj.
    + simpl. now rewrite Nat.add_1_r.
    + rewrite IH. now apply first_to_last_none.
  - rewrite IH. unfold first_to_last_brace. simpl. rewrite Hl.
    destruct (first_index 123 s) as [i|]; simpl; [|reflexivity].
    destruct (last_index 125 s) as [j|]; simpl.
    + reflexivity.
    + now destruct (is_char 125 c).
Qed.

Lemma match_braces_starts s m :
  match_braces s = Some m -> exists m', m = String "{" m'.
Proof.
  induction s as [|c s IH]; simpl; [discriminate|].
  destruct (is_char 123 c) eqn:Hl.
  - destruct (star_then_rbrace s) as [m0|]; [|exact IH].
    intros H. inversion H; subst. exists m0. f_equal.
    unfold is_char, code in Hl. apply N.eqb_eq in Hl.
    rewrite <- (ascii_N_embedding c), Hl. reflexivity.
  - exact IH.
Qed.

(** A payload that decodes is an object. *)
Lemma decoded_payload_object s cand v :
  match_braces s = Some cand ->
  JSON.parse cand = Some v ->
  exists ms, v = JObject ms.
Proof.
  intros Hm Hp. apply match_braces_starts in Hm as [m' ->].
  eapply parse_brace_object; eassumption.
Qed.

(** ** The escaping step *)

Lemma append_assoc (a b c : string) : (a ++ b) ++ c = a ++ (b ++ c).
Proof. induction a as [|x a IH]; simpl; [reflexivity | now rewrite IH]. Qed.

Lemma append_empty_r (a : string) : a ++ "" = a.
Proof. induction a as [|x a IH]; simpl; [reflexivity | now rewrite IH]. Qed.

Lemma replace_all_app c by_ s1 s2 :
  replace_all c by_ (s1 ++ s2) = replace_all c by_ s1 ++ replace_all c by_ s2.
Proof.
  induction s1 as [|x s1 IH]; simpl; [reflexivity|].
  rewrite IH. destruct (Ascii.eqb x c); simpl; [|reflexivity].
  now rewrite append_assoc.
Qed.

Lemma escapedText_app s1 s2 :
  escapedText (s1 ++ s2) = escapedText s1 ++ escapedText s2.
Proof. unfold escapedText. now rewrite !replace_all_app. Qed.

(** The ten replacements act on each character of the input by itself. *)
Lemma escapedText_single_pass s : escapedText s = single_pass escaped_char s.
Proof.
  induction s as [|c s IH]; [reflexivity|].
  change (String c s) with (String c "" ++ s).
  rewrite escapedText_app, IH. reflexivity.
Qed.

Ltac each_ascii c :=
  destruct c as [[] [] [] [] [] [] [] []].

(** The image of a character under the source: that of the single pass,
    except for the backslash, whose braces the two brace rules escape
    again. *)
Lemma escaped_char_table c :
  escaped_char c =
  if Ascii.eqb c backslash then "\textbackslash\{\}" else escape_char c.
Proof. each_ascii c; reflexivity. Qed.

Lemma single_pass_ext f g s :
  (forall c, has_char c s = true -> f c = g c) ->
  single_pass f s = single_pass g s.
Proof.
  induction s as [|x s IH]; intros H; simpl; [reflexivity|].
  rewrite H, IH; [reflexivity | |].
  - intros c Hc. apply H. simpl. rewrite Hc. apply orb_true_r.
  - simpl. now rewrite Ascii.eqb_refl.
Qed.

(** On a text without backslash the source does escape in one pass. *)
Lemma escapedText_without_backslash s :
  has_char backslash s = false ->
  escapedText s = single_pass escape_char s.
Proof.
  intros H. rewrite escapedText_single_pass. apply single_pass_ext.
  intros c Hc. rewrite escaped_char_table.
  destruct (Ascii.eqb c backslash) eqn:E; [|reflexivity].
  apply Ascii.eqb_eq in E. subst c. congruence.
Qed.

(** ** The summary section *)

Lemma no_backslash_n_app a b :
  no_backslash_n a = true ->
  no_backslash_n b = true ->
  ends_with_backslash a = false ->
  no_backslash_n (a ++ b) = true.
Proof.
  induction a as [|x a IH]; intros Ha Hb He; [exact Hb|].
  simpl in Ha. apply andb_true_iff in Ha as [Hx Ha].
  change (String x a ++ b) with (String x (a ++ b)).
  cbn [no_backslash_n]. apply andb_true_iff. split.
  - destruct a as [|y a].
    + simpl in He. cbn [append starts_with].
      rewrite Ascii.eqb_sym.
      match goal with |- context [Ascii.eqb x ?c] => change c with backslash end.
      rewrite He. reflexivity.
    + exact Hx.
  - apply IH; auto. destruct a; [reflexivity | exact He].
Qed.

Lemma ends_with_backslash_app a b :
  ends_with_backslash a = false ->
  ends_with_backslash b = false ->
  ends_with_backslash (a ++ b) = false.
Proof.
  induction a as [|x a IH]; intros Ha Hb; [exact Hb|].
  destruct a as [|y a].
  - simpl. destruct b; [exact Ha | exact Hb].
  - change (ends_with_backslash (String y a ++ b) = false). apply IH; auto.
Qed.

Lemma escaped_char_shape c :
  no_backslash_n (escaped_char c) = true /\
  ends_with_backslash (escaped_char c) = false.
Proof. each_ascii c; split; reflexivity. Qed.

Lemma escapedText_shape s :
  no_backslash_n (escapedText s) = true /\
  ends_with_backslash (escapedText s) = false.
Proof.
  rewrite escapedText_single_pass.
  induction s as [|c s [IH1 IH2]]; [split; reflexivity|].
  destruct (escaped_char_shape c) as [H1 H2]. simpl. split.
  - now apply no_backslash_n_app.
  - now apply ends_with_backslash_app.
Qed.

Lemma split_from_no_match cur s :
  no_backslash_n s = true ->
  split_from "\n" 0 cur s = [cur ++ s].
Proof.
  revert cur. induction s as [|c s IH]; intros cur H.
  - simpl. now rewrite append_empty_r.
  - cbn [no_backslash_n] in H. apply andb_true_iff in H as [Hp Hs].
    cbn [split_from]. apply negb_true_iff in Hp. rewrite Hp.
    rewrite IH by exact Hs. now rewrite append_assoc.
Qed.

(** The separator of [split] never occurs in an escaped text, so the
    summary is the whole escaped text. *)
Lemma summary_is_whole_text cvText :
  summary (escapedText cvText) = escapedText cvText.
Proof.
  unfold summary, split.
  rewrite split_from_no_match by apply escapedText_shape.
  reflexivity.
Qed.

(** ** The normalisers on a decoded payload *)

Lemma nullish_coalesce_own ms name d :
  nullish_coalesce (own ms name) d = field_or is_nullish ms name d.
Proof.
  unfold nullish_coalesce, own, field_or.
  now destruct (lookup name ms) as [v|].
Qed.

Lemma or_else_own ms name d :
  or_else (own ms name) d = field_or falsy ms name d.
Proof.
  unfold or_else, own, field_or, falsy.
  destruct (lookup name ms) as [v|]; [|reflexivity].
  now destruct (ToBoolean v).
Qed.

Lemma payload_candidate response v :
  payload response = Some v ->
  exists candidate,
    match_braces response = Some candidate /\ JSON.parse candidate = Some v.
Proof.
  unfold payload. destruct (match_braces response) as [c|]; [eauto | discriminate].
Qed.

Lemma payload_object response v :
  payload response = Some v -> exists ms, v = JObject ms.
Proof.
  intros H. apply payload_candidate in H as (c & Hm & Hp).
  eapply decoded_payload_object; eassumption.
Qed.

Ltac run_normaliser Hm Hp :=
  cbv [parseATSResponse parseAdaptationResponse try_catch bind String_match ret];
  rewrite Hm; cbv [JSON_parse ret]; rewrite Hp; cbv [get ret].

Lemma parseATSResponse_decoded response ms st :
  payload response = Some (JObject ms) ->
  parseATSResponse (JString response) st =
  (Normal {| isATSFormat := field_or is_nullish ms "isATSFormat" (JBool false);
             score := field_or is_nullish ms "score" (num 0);
             issues := field_or is_nullish ms "issues" (JArray []);
             suggestions := field_or is_nullish ms "suggestions" (JArray []) |},
   st).
Proof.
  intros H. apply payload_candidate in H as (c & Hm & Hp).
  run_normaliser Hm Hp. now rewrite !nullish_coalesce_own.
Qed.

(** The provider's document is truthy: it is the result, and the
    renderer is not called. *)
Lemma parseAdaptationResponse_supplied response ms st :
  payload response = Some (JObject ms) ->
  ToBoolean (own ms "latexCode") = true ->
  parseAdaptationResponse (JString response) st =
  (Normal {| adaptedCV := field_or falsy ms "adaptedCV" (JString "");
             latexCode := own ms "latexCode";
             changes := field_or falsy ms "changes" (JArray []);
             highlightedSkills := field_or falsy ms "highlightedSkills" (JArray []) |},
   st).
Proof.
  intros H Ht. apply payload_candidate in H as (c & Hm & Hp).
  run_normaliser Hm Hp. rewrite Ht. now rewrite !or_else_own.
Qed.

(** The provider's document is absent or falsy and the text to render
    is a string: the renderer is called once, on that text. *)
Lemma parseAdaptationResponse_rendered response ms text st :
  payload response = Some (JObject ms) ->
  ToBoolean (own ms "latexCode") = false ->
  or_else (own ms "adaptedCV") (JString "") = JString text ->
  parseAdaptationResponse (JString response) st =
  (Normal {| adaptedCV := field_or falsy ms "adaptedCV" (JString "");
             latexCode := JString (generateDefaultLaTeX text);
             changes := field_or falsy ms "changes" (JArray []);
             highlightedSkills := field_or falsy ms "highlightedSkills" (JArray []) |},
   {| config := config st; trace := trace st ++ [RenderCall (JString text)] |}).
Proof.
  intros H Hf Ha. apply payload_candidate in H as (c & Hm & Hp).
  run_normaliser Hm Hp. rewrite Hf.
  cbv [call_generateDefaultLaTeX bind log]. rewrite Ha.
  cbv [ret]. now rewrite <- Ha, !or_else_own.
Qed.

(** ** When no payload can be decoded *)

Lemma parseATSResponse_fallback response st :
  payload response = None ->
  exists error,
    parseATSResponse (JString response) st =
    (Normal ats_fallback,
     {| config := config st;
        trace := trace st ++ [ConsoleError "Error parsing ATS response:" error] |}).
Proof.
  unfold payload. intros H.
  cbv [parseATSResponse try_catch bind String_match ret].
  destruct (match_braces response) as [c|].
  - cbv [JSON_parse]. rewrite H. now exists SyntaxError.
  - now exists (Error "No JSON found in response").
Qed.

Lemma parseAdaptationResponse_fallback response st :
  payload response = None ->
  exists error,
    parseAdaptationResponse (JString response) st =
    (Normal adaptation_fallback,
     {| config := config st;
        trace := trace st
                 ++ [ConsoleError "Error parsing adaptation response:" error;
                     RenderCall (JString "")] |}).
Proof.
  unfold payload. intros H.
  cbv [parseAdaptationResponse try_catch bind String_match ret].
  destruct (match_braces response) as [c|].
  - cbv [JSON_parse]. rewrite H. exists SyntaxError.
    cbv [throw console_error log call_generateDefaultLaTeX bind ret config trace
         adaptation_fallback].
    now rewrite <- app_assoc.
  - exists (Error "No JSON found in response").
    cbv [throw console_error log call_generateDefaultLaTeX bind ret config trace
         adaptation_fallback].
    now rewrite <- app_assoc.
Qed.

(** Whatever the run-time value of the reply, the normalisers complete
    normally. *)
Lemma parseATSResponse_total response st :
  exists r st', parseATSResponse response st = (Normal r, st').
Proof.
  unfold parseATSResponse, try_catch.
  match goal with |- context [match ?b st with _ => _ end] =>
    destruct (b st) as [[r|e] st'] end;
    cbv [bind console_error log ret call_generateDefaultLaTeX]; eauto.
Qed.

Lemma parseAdaptationResponse_total response st :
  exists r st', parseAdaptationResponse response st = (Normal r, st').
Proof.
  unfold parseAdaptationResponse, try_catch.
  match goal with |- context [match ?b st with _ => _ end] =>
    destruct (b st) as [[r|e] st'] end;
    cbv [bind console_error log ret call_generateDefaultLaTeX]; eauto.
Qed.

(** ** Claims on the response normalisers *)

(** C1, as amended: when the payload extracted from a reply has a
    numeric [score] member, [parseATSResponse] returns that number
    unchanged; it does not clamp, so the returned score lies in
    [0,100] exactly when the payload's score does. *)
Theorem C1_score_returned_unclamped response ms n st :
  payload response = Some (JObject ms) ->
  lookup "score" ms = Some (JNumber n) ->
  exists r,
    parseATSResponse (JString response) st = (Normal r, st)
    /\ score r = JNumber n
    /\ score_in_range (score r) = within_0_100 n.
Proof.
  intros Hp Hs. rewrite (parseATSResponse_decoded response ms st Hp).
  eexists. split; [reflexivity|].
  cbn [score]. unfold field_or. rewrite Hs. split; reflexivity.
Qed.

Lemma C1_score_returned_unclamped_witness :
  payload reply_score_150 = Some (JObject [("score", num 150)])
  /\ lookup "score" [("score", num 150)] = Some (JNumber (number_of_Z 150))
  /\ exists r,
       parseATSResponse (JString reply_score_150) initial = (Normal r, initial)
       /\ score r = JNumber (number_of_Z 150)
       /\ score_in_range (score r) = within_0_100 (number_of_Z 150).
Proof.
  split; [vm_compute; reflexivity|]. split; [reflexivity|].
  apply (C1_score_returned_unclamped reply_score_150 [("score", num 150)]
           (number_of_Z 150) initial);
    vm_compute; reflexivity.
Defined.

(** C1 as stated fails: a payload score of 150 is returned as 150, not
    100, and a score of -5 as -5, not 0; neither result is in [0,100]. *)
Lemma C1_score_150_counterexample :
  payload reply_score_150 = Some (JObject [("score", num 150)])
  /\ payload reply_score_minus_5 = Some (JObject [("score", num (-5))])
  /\ (exists r,
        parseATSResponse (JString reply_score_150) initial = (Normal r, initial)
        /\ score r = num 150 /\ score r <> num 100
        /\ score_in_range (score r) = false)
  /\ (exists r,
        parseATSResponse (JString reply_score_minus_5) initial = (Normal r, initial)
        /\ score r = num (-5) /\ score r <> num 0
        /\ score_in_range (score r) = false).
Proof.
  split; [vm_compute; reflexivity|]. split; [vm_compute; reflexivity|].
  split; eexists; (split; [vm_compute; reflexivity|]);
    (split; [vm_compute; reflexivity|]);
    (split; [vm_compute; discriminate | vm_compute; reflexivity]).
Qed.

(** C2, as amended: the candidate payload is exactly the text from the
    first opening brace to the last closing brace when the one comes
    before the other; when there is none, parsing has failed and the
    fallback records are returned; and the reply
    [Sure! {"isATSFormat": true, "score": 87, "issues": [],
    "suggestions": ["Use bullet points"]}] parses to
    [{isATSFormat: true, score: 87, issues: [],
    suggestions: ["Use bullet points"]}]. *)
Theorem C2_candidate_from_first_to_last_brace :
  (forall rawText, match_braces rawText = first_to_last_brace rawText)
  /\ (forall rawText st,
        first_to_last_brace rawText = None ->
        fst (parseATSResponse (JString rawText) st) = Normal ats_fallback
        /\ fst (parseAdaptationResponse (JString rawText) st)
           = Normal adaptation_fallback)
  /\ (forall st,
        parseATSResponse (JString reply_isATSFormat) st =
        (Normal {| isATSFormat := JBool true;
                   score := num 87;
                   issues := JArray [];
                   suggestions := JArray [JString "Use bullet points"] |},
         st)).
Proof.
  split; [exact match_braces_first_to_last|]. split.
  - intros rawText st H. rewrite <- match_braces_first_to_last in H.
    assert (Hp : payload rawText = None) by (unfold payload; now rewrite H).
    destruct (parseATSResponse_fallback rawText st Hp) as [e1 ->].
    destruct (parseAdaptationResponse_fallback rawText st Hp) as [e2 ->].
    split; reflexivity.
  - intros st. vm_compute. reflexivity.
Qed.

Lemma C2_candidate_from_first_to_last_brace_witness :
  first_to_last_brace reply_not_json = None
  /\ fst (parseATSResponse (JString reply_not_json) initial) = Normal ats_fallback
  /\ fst (parseAdaptationResponse (JString reply_not_json) initial)
     = Normal adaptation_fallback.
Proof.
  split; [reflexivity|].
  apply (proj1 (proj2 C2_candidate_from_first_to_last_brace) reply_not_json initial).
  reflexivity.
Defined.

(** C2 as stated fails on its example: the member [isCompliant] of the
    reply is not read, so the assessment has [isATSFormat: false]. *)
Lemma C2_isCompliant_counterexample :
  parseATSResponse (JString reply_isCompliant) initial =
  (Normal {| isATSFormat := JBool false;
             score := num 87;
             issues := JArray [];
             suggestions := JArray [JString "Use bullet points"] |},
   initial)
  /\ fst (parseATSResponse (JString reply_isCompliant) initial) <>
     Normal {| isATSFormat := JBool true;
               score := num 87;
               issues := JArray [];
               suggestions := JArray [JString "Use bullet points"] |}.
Proof.
  split; [vm_compute; reflexivity | vm_compute; discriminate].
Qed.

(** C3: on every string the two normalisers complete normally, and
    when the reply has no brace-delimited substring or its candidate
    does not decode they return exactly the fallback records. *)
Theorem C3_normalisers_total_and_fall_back (response : string) (st : State) :
  (exists r st', parseATSResponse (JString response) st = (Normal r, st'))
  /\ (exists r st', parseAdaptationResponse (JString response) st = (Normal r, st'))
  /\ (match_braces response = None
      \/ (exists candidate,
            match_braces response = Some candidate
            /\ JSON.parse candidate = None) ->
      fst (parseATSResponse (JString response) st) = Normal ats_fallback
      /\ fst (parseAdaptationResponse (JString response) st)
         = Normal adaptation_fallback).
Proof.
  split; [apply parseATSResponse_total|].
  split; [apply parseAdaptationResponse_total|].
  intros H.
  assert (Hp : payload response = None).
  { unfold payload. destruct H as [-> | (c & -> & Hc)]; [reflexivity | exact Hc]. }
  destruct (parseATSResponse_fallback response st Hp) as [e1 ->].
  destruct (parseAdaptationResponse_fallback response st Hp) as [e2 ->].
  split; reflexivity.
Qed.

Lemma C3_normalisers_total_and_fall_back_witness :
  (match_braces reply_not_json = None
   \/ (exists candidate,
         match_braces reply_not_json = Some candidate
         /\ JSON.parse candidate = None))
  /\ fst (parseATSResponse (JString reply_not_json) initial) = Normal ats_fallback
  /\ fst (parseAdaptationResponse (JString reply_not_json) initial)
     = Normal adaptation_fallback.
Proof.
  assert (H : match_braces reply_not_json = None
              \/ (exists candidate,
                    match_braces reply_not_json = Some candidate
                    /\ JSON.parse candidate = None))
    by (left; reflexivity).
  split; [exact H|].
  exact (proj2 (proj2 (C3_normalisers_total_and_fall_back reply_not_json initial)) H).
Defined.

(** C7, as amended: a payload that decodes is an object, and each
    expected field of the result is its default when the member is
    absent or [null] (assessment), or absent or falsy (adaptation), and
    is the member itself otherwise, whatever its shape. For the
    adaptation this is stated for the replies whose document the
    provider supplied or whose text to render is a string. *)
Theorem C7_defaults_for_missing_members response parsed st :
  payload response = Some parsed ->
  exists ms,
    parsed = JObject ms
    /\ (exists r,
          parseATSResponse (JString response) st = (Normal r, st)
          /\ isATSFormat r = field_or is_nullish ms "isATSFormat" (JBool false)
          /\ score r = field_or is_nullish ms "score" (num 0)
          /\ issues r = field_or is_nullish ms "issues" (JArray [])
          /\ suggestions r = field_or is_nullish ms "suggestions" (JArray []))
    /\ (ToBoolean (own ms "latexCode") = true
        \/ is_string (or_else (own ms "adaptedCV") (JString "")) = true ->
        exists r st',
          parseAdaptationResponse (JString response) st = (Normal r, st')
          /\ adaptedCV r = field_or falsy ms "adaptedCV" (JString "")
          /\ changes r = field_or falsy ms "changes" (JArray [])
          /\ highlightedSkills r
             = field_or falsy ms "highlightedSkills" (JArray [])).
Proof.
  intros Hp. destruct (payload_object response parsed Hp) as [ms ->].
  exists ms. split; [reflexivity|]. split.
  - rewrite (parseATSResponse_decoded response ms st Hp).
    eexists. split; [reflexivity|]. cbn. repeat split.
  - destruct (ToBoolean (own ms "latexCode")) eqn:Ht.
    + intros _. rewrite (parseAdaptationResponse_supplied response ms st Hp Ht).
      do 2 eexists. split; [reflexivity|]. cbn. repeat split.
    + intros [H|H]; [discriminate|].
      destruct (or_else (own ms "adaptedCV") (JString "")) as [| | | |text| |] eqn:Ha;
        try discriminate.
      rewrite (parseAdaptationResponse_rendered response ms text st Hp Ht Ha).
      do 2 eexists. split; [reflexivity|]. cbn. repeat split.
Qed.

Lemma C7_defaults_for_missing_members_witness :
  payload reply_wrong_shapes = Some (JObject members_wrong_shapes)
  /\ exists ms,
       JObject members_wrong_shapes = JObject ms
       /\ (exists r,
             parseATSResponse (JString reply_wrong_shapes) initial = (Normal r, initial)
             /\ isATSFormat r = field_or is_nullish ms "isATSFormat" (JBool false)
             /\ score r = field_or is_nullish ms "score" (num 0)
             /\ issues r = field_or is_nullish ms "issues" (JArray [])
             /\ suggestions r = field_or is_nullish ms "suggestions" (JArray []))
       /\ (ToBoolean (own ms "latexCode") = true
           \/ is_string (or_else (own ms "adaptedCV") (JString "")) = true ->
           exists r st',
             parseAdaptationResponse (JString reply_wrong_shapes) initial
             = (Normal r, st')
             /\ adaptedCV r = field_or falsy ms "adaptedCV" (JString "")
             /\ changes r = field_or falsy ms "changes" (JArray [])
             /\ highlightedSkills r
                = field_or falsy ms "highlightedSkills" (JArray [])).
Proof.
  split; [vm_compute; reflexivity|].
  apply (C7_defaults_for_missing_members reply_wrong_shapes
           (JObject members_wrong_shapes) initial).
  vm_compute; reflexivity.
Defined.

(** C7 as stated fails: members of the wrong shape are not replaced by
    the defaults. A string [score] and a string [issues] are returned
    as they are by [parseATSResponse]. *)
Lemma C7_wrong_shape_counterexample :
  payload reply_wrong_shapes = Some (JObject members_wrong_shapes)
  /\ lookup "score" members_wrong_shapes = Some (JString "high")
  /\ lookup "issues" members_wrong_shapes = Some (JString "none")
  /\ exists r,
       parseATSResponse (JString reply_wrong_shapes) initial = (Normal r, initial)
       /\ score r = JString "high" /\ score r <> num 0
       /\ issues r = JString "none" /\ issues r <> JArray [].
Proof.
  split; [vm_compute; reflexivity|]. split; [reflexivity|]. split; [reflexivity|].
  eexists. split; [vm_compute; reflexivity|].
  cbn. repeat split; discriminate.
Qed.

Lemma renders_after_render st v :
  renders {| config := config st; trace := trace st ++ [RenderCall v] |}
  = S (renders st).
Proof.
  unfold renders. cbn [trace]. rewrite filter_app, length_app. cbn. lia.
Qed.

(** C8, as amended: for a payload that decodes, a truthy [latexCode]
    is the [latexCode] of the result, unmodified, and the renderer is
    not called; when [latexCode] is absent or falsy ([null], [false],
    [0], the empty string) the renderer is called once and [latexCode]
    is [generateDefaultLaTeX] of the payload's [adaptedCV] when that is
    a non-empty string, and of the empty string when [adaptedCV] is
    absent or falsy. *)
Theorem C8_document_passed_or_rendered response ms st :
  payload response = Some (JObject ms) ->
  (ToBoolean (own ms "latexCode") = true ->
   exists r,
     parseAdaptationResponse (JString response) st = (Normal r, st)
     /\ latexCode r = own ms "latexCode")
  /\ (ToBoolean (own ms "latexCode") = false ->
      forall text,
        or_else (own ms "adaptedCV") (JString "") = JString text ->
        exists r st',
          parseAdaptationResponse (JString response) st = (Normal r, st')
          /\ latexCode r = JString (generateDefaultLaTeX text)
          /\ renders st' = S (renders st)).
Proof.
  intros Hp. split.
  - intros Ht. rewrite (parseAdaptationResponse_supplied response ms st Hp Ht).
    eexists. split; reflexivity.
  - intros Hf text Ha.
    rewrite (parseAdaptationResponse_rendered response ms text st Hp Hf Ha).
    do 2 eexists. split; [reflexivity|]. split; [reflexivity|].
    apply renders_after_render.
Qed.

Lemma C8_document_passed_or_rendered_witness :
  payload reply_with_document = Some (JObject members_with_document)
  /\ ToBoolean (own members_with_document "latexCode") = true
  /\ exists r,
       parseAdaptationResponse (JString reply_with_document) initial
       = (Normal r, initial)
       /\ latexCode r = own members_with_document "latexCode".
Proof.
  split; [vm_compute; reflexivity|]. split; [reflexivity|].
  apply (proj1 (C8_document_passed_or_rendered reply_with_document
                  members_with_document initial
                  ltac:(vm_compute; reflexivity))).
  reflexivity.
Defined.

(** C8 as stated fails: a reply that does supply [latexCode], as the
    empty string, has the renderer called, and the supplied value is
    not the [latexCode] of the result. *)
Lemma C8_empty_document_counterexample :
  payload reply_empty_document
  = Some (JObject [("latexCode", JString ""); ("adaptedCV", JString "x")])
  /\ exists r st',
       parseAdaptationResponse (JString reply_empty_document) initial
       = (Normal r, st')
       /\ trace st' = [RenderCall (JString "x")]
       /\ latexCode r = JString (generateDefaultLaTeX "x")
       /\ latexCode r <> JString "".
Proof.
  split; [vm_compute; reflexivity|].
  do 2 eexists. split; [vm_compute; reflexivity|].
  cbn [trace latexCode]. split; [reflexivity|]. split; [reflexivity|].
  vm_compute. discriminate.
Qed.

(** ** Claims on the document renderer *)

Lemma append_cancel_l (p a b : string) : p ++ a = p ++ b -> a = b.
Proof.
  induction p as [|x p IH]; simpl; intros H; [exact H|].
  inversion H. auto.
Qed.

Lemma escapedText_single_pass_only_without_backslash s :
  escapedText s = single_pass escape_char s -> has_char backslash s = false.
Proof.
  rewrite escapedText_single_pass.
  induction s as [|c s IH]; [reflexivity|].
  cbn [single_pass has_char]. rewrite escaped_char_table.
  destruct (Ascii.eqb c backslash) eqn:E.
  - apply Ascii.eqb_eq in E. subst c. cbn. intros H. inversion H.
  - intros H. apply append_cancel_l in H. cbn. exact (IH H).
Qed.

(** C4: the escaping step is not a single pass. The braces written for
    a backslash are escaped again by the two brace rules, so one
    backslash becomes [\textbackslash\{\}] where the single pass gives
    [\textbackslash{}]; the step agrees with the single pass exactly on
    the texts that hold no backslash. *)
Theorem C4_backslash_braces_escaped_again :
  escapedText one_backslash = "\textbackslash\{\}"
  /\ single_pass escape_char one_backslash = "\textbackslash{}"
  /\ forall s,
       escapedText s = single_pass escape_char s <-> has_char backslash s = false.
Proof.
  split; [reflexivity|]. split; [reflexivity|].
  intros s. split.
  - apply escapedText_single_pass_only_without_backslash.
  - apply escapedText_without_backslash.
Qed.

(** C5: the summary section does not hold the first three lines. The
    text is split on a backslash followed by [n], which no escaped text
    contains, so the summary section holds the whole escaped text, as
    the full-text section does; for the four lines of the scenario the
    summary holds all four. *)
Theorem C5_summary_holds_every_line :
  (forall cvText, summary (escapedText cvText) = escapedText cvText)
  /\ (forall cvText,
        generateDefaultLaTeX cvText =
        unlines
          (preamble
           ++ [ "\section{Professional Summary}";
                escapedText cvText;
                "";
                "\section{Experience}";
                escapedText cvText ]
           ++ closing)%list)
  /\ summary (escapedText four_lines) = four_lines
  /\ first_three_lines (escapedText four_lines)
     = "Line1" ++ nl ++ "Line2" ++ nl ++ "Line3"
  /\ summary (escapedText four_lines) <> first_three_lines (escapedText four_lines).
Proof.
  split; [exact summary_is_whole_text|]. split.
  - intros cvText. unfold generateDefaultLaTeX.
    now rewrite summary_is_whole_text.
  - split; [reflexivity|]. split; [reflexivity|]. vm_compute. discriminate.
Qed.

(** ** How the computations treat the state *)

Create HintDb frame.

Section Frames.

Context {A B X : Type} (f : State -> X).

Lemma si_ret (a : A) : state_independent (ret a).
Proof. intros st1 st2. reflexivity. Qed.

Lemma si_throw (e : exn) : state_independent (@throw A e).
Proof. intros st1 st2. reflexivity. Qed.

Lemma si_bind (m : M A) (k : A -> M B) :
  state_independent m ->
  (forall a, state_independent (k a)) ->
  state_independent (bind m k).
Proof.
  intros Hm Hk st1 st2. unfold bind. specialize (Hm st1 st2).
  destruct (m st1) as [[a1|e1] st1'], (m st2) as [[a2|e2] st2'];
    simpl in Hm; inversion Hm; subst; [apply Hk | reflexivity].
Qed.

Lemma si_try_catch (body : M A) (handler : exn -> M A) :
  state_independent body ->
  (forall e, state_independent (handler e)) ->
  state_independent (try_catch body handler).
Proof.
  intros Hb Hh st1 st2. unfold try_catch. specialize (Hb st1 st2).
  destruct (body st1) as [[a1|e1] st1'], (body st2) as [[a2|e2] st2'];
    simpl in Hb; inversion Hb; subst; [reflexivity | apply Hh].
Qed.

Lemma keeps_ret (a : A) : keeps f (ret a).
Proof. intros st. reflexivity. Qed.

Lemma keeps_throw (e : exn) : keeps f (@throw A e).
Proof. intros st. reflexivity. Qed.

Lemma keeps_bind (m : M A) (k : A -> M B) :
  keeps f m ->
  (forall a, keeps f (k a)) ->
  keeps f (bind m k).
Proof.
  intros Hm Hk st. unfold bind. specialize (Hm st).
  destruct (m st) as [[a|e] st']; simpl in *; [|exact Hm].
  now rewrite Hk.
Qed.

Lemma keeps_try_catch (body : M A) (handler : exn -> M A) :
  keeps f body ->
  (forall e, keeps f (handler e)) ->
  keeps f (try_catch body handler).
Proof.
  intros Hb Hh st. unfold try_catch. specialize (Hb st).
  destruct (body st) as [[a|e] st']; simpl in *; [exact Hb|].
  now rewrite Hh.
Qed.

End Frames.

Section PostsOnce.

Context {A B : Type}.

Lemma posts_once_bind (m : M A) (k : A -> M B) :
  posts_once m ->
  (forall a, keeps posts (k a)) ->
  posts_once (bind m k).
Proof.
  intros Hm Hk st. unfold bind. specialize (Hm st).
  destruct (m st) as [[a|e] st']; simpl in *; [|exact Hm].
  now rewrite Hk.
Qed.

Lemma posts_once_try_catch (body : M A) (handler : exn -> M A) :
  posts_once body ->
  (forall e, keeps posts (handler e)) ->
  posts_once (try_catch body handler).
Proof.
  intros Hb Hh st. unfold try_catch. specialize (Hb st).
  destruct (body st) as [[a|e] st']; simpl in *; [exact Hb|].
  now rewrite Hh.
Qed.

End PostsOnce.

Lemma si_log e : state_independent (log e).
Proof. intros st1 st2. reflexivity. Qed.

Lemma keeps_config_log e : keeps config (log e).
Proof. intros st. reflexivity. Qed.

Lemma keeps_posts_log e : is_post e = false -> keeps posts (log e).
Proof.
  intros H st. unfold posts, log. cbn [snd trace].
  rewrite filter_app. cbn [filter]. rewrite H. now rewrite app_nil_r.
Qed.

Lemma keeps_this_config {X : Type} (f : State -> X) : keeps f this_config.
Proof. intros st. reflexivity. Qed.

#[local] Hint Resolve si_log keeps_config_log keeps_this_config : frame.
#[local] Hint Resolve si_ret si_throw keeps_ret keeps_throw : frame.

(** One step through a computation built from [bind], [try_catch] and
    case distinctions. *)
Ltac frame_step :=
  match goal with
  | |- _ (bind _ _) => first [apply si_bind | apply keeps_bind]; [|intros ?]
  | |- _ (try_catch _ _) =>
      first [apply si_try_catch | apply keeps_try_catch]; [|intros ?]
  | |- _ (match ?x with _ => _ end) => destruct x
  | |- _ => solve [auto with frame]
  end.

Ltac frame := repeat frame_step.

Lemma si_get o name : state_independent (get o name).
Proof. unfold get. frame. Qed.

Lemma keeps_get {X : Type} (f : State -> X) o name : keeps f (get o name).
Proof. unfold get. frame. Qed.

Lemma keeps_get_index0 {X : Type} (f : State -> X) o : keeps f (get_index0 o).
Proof. unfold get_index0. frame. Qed.

Lemma si_String_match response : state_independent (String_match response).
Proof. unfold String_match. frame. Qed.

Lemma keeps_String_match {X : Type} (f : State -> X) response :
  keeps f (String_match response).
Proof. unfold String_match. frame. Qed.

Lemma si_JSON_parse text : state_independent (JSON_parse text).
Proof. unfold JSON_parse. frame. Qed.

Lemma keeps_JSON_parse {X : Type} (f : State -> X) text : keeps f (JSON_parse text).
Proof. unfold JSON_parse. frame. Qed.

#[local] Hint Resolve si_get keeps_get keeps_get_index0 si_String_match
  keeps_String_match si_JSON_parse keeps_JSON_parse : frame.

Lemma si_console_error label error : state_independent (console_error label error).
Proof. unfold console_error. frame. Qed.

Lemma keeps_config_console_error label error :
  keeps config (console_error label error).
Proof. unfold console_error. frame. Qed.

Lemma keeps_posts_console_error label error :
  keeps posts (console_error label error).
Proof. now apply keeps_posts_log. Qed.

#[local] Hint Resolve si_console_error keeps_config_console_error
  keeps_posts_console_error : frame.

Lemma si_call_generateDefaultLaTeX cvText :
  state_independent (call_generateDefaultLaTeX cvText).
Proof. unfold call_generateDefaultLaTeX. frame. Qed.

Lemma keeps_config_call_generateDefaultLaTeX cvText :
  keeps config (call_generateDefaultLaTeX cvText).
Proof. unfold call_generateDefaultLaTeX. frame. Qed.

Lemma keeps_posts_call_generateDefaultLaTeX cvText :
  keeps posts (call_generateDefaultLaTeX cvText).
Proof.
  unfold call_generateDefaultLaTeX. apply keeps_bind.
  - now apply keeps_posts_log.
  - intros _. frame.
Qed.

#[local] Hint Resolve si_call_generateDefaultLaTeX
  keeps_config_call_generateDefaultLaTeX
  keeps_posts_call_generateDefaultLaTeX : frame.

Lemma si_parseATSResponse response : state_independent (parseATSResponse response).
Proof. unfold parseATSResponse. frame. Qed.

Lemma keeps_config_parseATSResponse response :
  keeps config (parseATSResponse response).
Proof. unfold parseATSResponse. frame. Qed.

Lemma keeps_posts_parseATSResponse response :
  keeps posts (parseATSResponse response).
Proof. unfold parseATSResponse. frame. Qed.

Lemma si_parseAdaptationResponse response :
  state_independent (parseAdaptationResponse response).
Proof. unfold parseAdaptationResponse. frame. Qed.

Lemma keeps_config_parseAdaptationResponse response :
  keeps config (parseAdaptationResponse response).
Proof. unfold parseAdaptationResponse. frame. Qed.

Lemma keeps_posts_parseAdaptationResponse response :
  keeps posts (parseAdaptationResponse response).
Proof. unfold parseAdaptationResponse. frame. Qed.

#[local] Hint Resolve keeps_config_parseATSResponse
  keeps_config_parseAdaptationResponse keeps_posts_parseATSResponse
  keeps_posts_parseAdaptationResponse : frame.

(** ** The configuration check and the transports *)

Lemma bind_this_config {A : Type} (k : option APIProviderConfig -> M A) st :
  bind this_config k st = k (config st) st.
Proof. reflexivity. Qed.

Lemma throws_only_try_catch {A : Type} (P : exn -> Prop)
  (body : M A) (handler : exn -> M A) st :
  (forall e st', throws_only P (fst (handler e st'))) ->
  throws_only P (fst (try_catch body handler st)).
Proof.
  intros H. unfold try_catch.
  destruct (body st) as [[a|e] st']; [exact I | apply H].
Qed.

Lemma transport_error_not_not_set e : transport_error e -> e <> not_set.
Proof. intros [[d [-> | ->]] | ->]; discriminate. Qed.

Section TransportFacts.

Variable network : list Event -> Request -> AxiosOutcome.
Variable native_message : exn -> string.
Variable Number_toString : spec_float -> string.

Lemma keeps_config_axios_post rq : keeps config (axios_post network rq).
Proof.
  intros st. unfold axios_post.
  now destruct (network (trace st) rq).
Qed.

Lemma posts_once_axios_post rq : posts_once (axios_post network rq).
Proof.
  intros st. unfold axios_post, posts.
  destruct (network (trace st) rq); cbn [snd trace];
    rewrite filter_app, length_app; cbn; lia.
Qed.

#[local] Hint Resolve keeps_config_axios_post : frame.

Lemma keeps_config_callAPI prompt :
  keeps config (callAPI network native_message Number_toString prompt).
Proof. unfold callAPI, callOpenAI, callClaude. frame. Qed.

#[local] Hint Resolve keeps_config_callAPI : frame.

Lemma keeps_config_checkATSFormat cvText :
  keeps config (checkATSFormat network native_message Number_toString cvText).
Proof. unfold checkATSFormat. frame. Qed.

Lemma keeps_config_adaptCVToJob cvText jobDescription :
  keeps config
    (adaptCVToJob network native_message Number_toString cvText jobDescription).
Proof. unfold adaptCVToJob. frame. Qed.

(** With a configuration set, the transport completes normally, with
    an error of one of the two providers or with the [TypeError] of an
    error message that cannot be converted, after exactly one request. *)
Lemma callAPI_completion prompt st :
  config st <> None ->
  throws_only transport_error
    (fst (callAPI network native_message Number_toString prompt st))
  /\ posts (snd (callAPI network native_message Number_toString prompt st))
     = S (posts st).
Proof.
  intros Hc. unfold callAPI. rewrite bind_this_config.
  destruct (config st) as [cfg|] eqn:E; [clear Hc | contradiction].
  destruct (provider cfg).
  - unfold callOpenAI. rewrite bind_this_config, E. split.
    + apply throws_only_try_catch. intros e st'.
      destruct (ToString Number_toString (error_detail native_message e));
        [left; eexists; left; reflexivity | right; reflexivity].
    + apply posts_once_try_catch; [|intros e; frame].
      apply posts_once_bind; [apply posts_once_axios_post | intros data; frame].
  - unfold callClaude. rewrite bind_this_config, E. split.
    + apply throws_only_try_catch. intros e st'.
      destruct (ToString Number_toString (error_detail native_message e));
        [left; eexists; right; reflexivity | right; reflexivity].
    + apply posts_once_try_catch; [|intros e; frame].
      apply posts_once_bind; [apply posts_once_axios_post | intros data; frame].
Qed.

Lemma checkATSFormat_completion cvText st :
  config st <> None ->
  throws_only transport_error
    (fst (checkATSFormat network native_message Number_toString cvText st))
  /\ posts (snd (checkATSFormat network native_message Number_toString cvText st))
     = S (posts st).
Proof.
  intros Hc. unfold checkATSFormat. rewrite bind_this_config.
  destruct (config st) as [cfg|] eqn:E; [|contradiction].
  assert (H := callAPI_completion (ats_prompt cvText) st).
  rewrite E in H. destruct (H Hc) as [H1 H2]. unfold bind.
  destruct (callAPI network native_message Number_toString (ats_prompt cvText) st)
    as [[v|e] st']; [|now split].
  cbn [fst snd] in H2. rewrite keeps_posts_parseATSResponse.
  destruct (parseATSResponse_total v st') as (r & st'' & ->). now split.
Qed.

Lemma adaptCVToJob_completion cvText jobDescription st :
  config st <> None ->
  throws_only transport_error
    (fst (adaptCVToJob network native_message Number_toString
            cvText jobDescription st))
  /\ posts (snd (adaptCVToJob network native_message Number_toString
                   cvText jobDescription st))
     = S (posts st).
Proof.
  intros Hc. unfold adaptCVToJob. rewrite bind_this_config.
  destruct (config st) as [cfg|] eqn:E; [|contradiction].
  assert (H := callAPI_completion (adaptation_prompt cvText jobDescription) st).
  rewrite E in H. destruct (H Hc) as [H1 H2]. unfold bind.
  destruct (callAPI network native_message Number_toString
              (adaptation_prompt cvText jobDescription) st)
    as [[v|e] st']; [|now split].
  cbn [fst snd] in H2. rewrite keeps_posts_parseAdaptationResponse.
  destruct (parseAdaptationResponse_total v st') as (r & st'' & ->). now split.
Qed.

(** Once set, the configuration stays set. *)
Lemma perform_keeps_set st c :
  config st <> None ->
  config (perform network native_message Number_toString st c) <> None.
Proof.
  intros H. destruct c as [cfg | cvText | cvText jobDescription]; cbn [perform].
  - discriminate.
  - now rewrite keeps_config_checkATSFormat.
  - now rewrite keeps_config_adaptCVToJob.
Qed.

Lemma perform_all_keeps_set calls : forall st,
  config st <> None ->
  config (perform_all network native_message Number_toString st calls) <> None.
Proof.
  induction calls as [|c calls IH]; intros st H; [exact H|].
  apply IH. now apply perform_keeps_set.
Qed.

End TransportFacts.

(** ** Claims on the configuration *)

(** C6: while no configuration has been set, [checkATSFormat] and
    [adaptCVToJob] fail with the error 'API configuration not set' and
    leave the state as it was: no transport call is made. *)
Theorem C6_unconfigured_calls_fail_before_transport
  (network : list Event -> Request -> AxiosOutcome)
  (native_message : exn -> string) (Number_toString : spec_float -> string)
  (cvText jobDescription : string) (st : State) :
  config st = None ->
  checkATSFormat network native_message Number_toString cvText st
  = (Throw (Error "API configuration not set"), st)
  /\ adaptCVToJob network native_message Number_toString cvText jobDescription st
     = (Throw (Error "API configuration not set"), st)
  /\ posts (snd (checkATSFormat network native_message Number_toString cvText st))
     = posts st
  /\ posts (snd (adaptCVToJob network native_message Number_toString
                   cvText jobDescription st))
     = posts st.
Proof.
  intros H. unfold checkATSFormat, adaptCVToJob.
  rewrite !bind_this_config, H. repeat split.
Qed.

Lemma C6_unconfigured_calls_fail_before_transport_witness :
  config initial = None
  /\ checkATSFormat offline no_message no_digits "my cv" initial
     = (Throw (Error "API configuration not set"), initial)
  /\ adaptCVToJob offline no_message no_digits "my cv" "a job" initial
     = (Throw (Error "API configuration not set"), initial)
  /\ posts (snd (checkATSFormat offline no_message no_digits "my cv" initial))
     = posts initial
  /\ posts (snd (adaptCVToJob offline no_message no_digits "my cv" "a job" initial))
     = posts initial.
Proof.
  split; [reflexivity|].
  apply (C6_unconfigured_calls_fail_before_transport
           offline no_message no_digits "my cv" "a job" initial).
  reflexivity.
Defined.

(** C9: after [setConfig] has been called, whatever calls of
    [setConfig], [checkATSFormat] and [adaptCVToJob] follow, the
    configuration is set, and a call of [checkATSFormat] or
    [adaptCVToJob] passes the configuration check: it does not fail
    with 'API configuration not set', it makes its one transport call,
    and it completes normally, with an error of a provider, or with the
    [TypeError] raised when the message of an error response cannot be
    converted to a string. *)
Theorem C9_configuration_stays_set
  (network : list Event -> Request -> AxiosOutcome)
  (native_message : exn -> string) (Number_toString : spec_float -> string)
  (c : APIProviderConfig) (calls : list Call) (st : State)
  (cvText jobDescription : string) :
  let st' :=
    perform_all network native_message Number_toString
      (snd (setConfig c st)) calls in
  let check := checkATSFormat network native_message Number_toString cvText st' in
  let adapt :=
    adaptCVToJob network native_message Number_toString cvText jobDescription st' in
  config st' <> None
  /\ fst check <> Throw (Error "API configuration not set")
  /\ fst adapt <> Throw (Error "API configuration not set")
  /\ throws_only transport_error (fst check)
  /\ throws_only transport_error (fst adapt)
  /\ posts (snd check) = S (posts st')
  /\ posts (snd adapt) = S (posts st').
Proof.
  intros st' check adapt.
  assert (Hset : config st' <> None)
    by (apply perform_all_keeps_set; discriminate).
  destruct (checkATSFormat_completion network native_message Number_toString
              cvText st' Hset) as [H1 P1].
  destruct (adaptCVToJob_completion network native_message Number_toString
              cvText jobDescription st' Hset) as [H2 P2].
  fold check in H1, P1. fold adapt in H2, P2.
  split; [exact Hset|]. repeat split; try assumption.
  - intros E. rewrite E in H1. now apply transport_error_not_not_set in H1.
  - intros E. rewrite E in H2. now apply transport_error_not_not_set in H2.
Qed.

(** C10: the completions of [parseATSResponse], [parseAdaptationResponse]
    and [generateDefaultLaTeX] on a string are the same in any two
    states, whatever the configuration and whatever happened before,
    and none of them changes the configuration. *)
Theorem C10_normalisers_depend_on_input_only (s : string) (st1 st2 : State) :
  fst (parseATSResponse (JString s) st1) = fst (parseATSResponse (JString s) st2)
  /\ fst (parseAdaptationResponse (JString s) st1)
     = fst (parseAdaptationResponse (JString s) st2)
  /\ fst (call_generateDefaultLaTeX (JString s) st1)
     = Normal (JString (generateDefaultLaTeX s))
  /\ fst (call_generateDefaultLaTeX (JString s) st2)
     = Normal (JString (generateDefaultLaTeX s))
  /\ config (snd (parseATSResponse (JString s) st1)) = config st1
  /\ config (snd (parseAdaptationResponse (JString s) st1)) = config st1
  /\ config (snd (call_generateDefaultLaTeX (JString s) st1)) = config st1.
Proof.
  split; [apply si_parseATSResponse|].
  split; [apply si_parseAdaptationResponse|].
  split; [reflexivity|]. split; [reflexivity|].
  split; [apply keeps_config_parseATSResponse|].
  split; [apply keeps_config_parseAdaptationResponse | reflexivity].
Qed.

(** * Further properties *)

(** ** Prose around the payload *)

Lemma is_char_lbrace x : is_char 123 x = Ascii.eqb x "{".
Proof. each_ascii x; reflexivity. Qed.

Lemma is_char_rbrace x : is_char 125 x = Ascii.eqb x "}".
Proof. each_ascii x; reflexivity. Qed.

Lemma star_then_rbrace_none s :
  has_char "}" s = false -> star_then_rbrace s = None.
Proof.
  induction s as [|x s IH]; [reflexivity|].
  cbn [has_char star_then_rbrace]. intros H.
  apply orb_false_iff in H as [Hx Hs].
  now rewrite (IH Hs), is_char_rbrace, Hx.
Qed.

Lemma star_then_rbrace_body body post :
  has_char "}" post = false ->
  star_then_rbrace (body ++ "}" ++ post) = Some (body ++ "}").
Proof.
  intros H. induction body as [|x body IH].
  - cbn. now rewrite (star_then_rbrace_none post H).
  - change (String x body ++ "}" ++ post) with (String x (body ++ "}" ++ post)).
    cbn [star_then_rbrace]. now rewrite IH.
Qed.

Lemma match_braces_around pre body post :
  has_char "{" pre = false ->
  has_char "}" post = false ->
  match_braces (pre ++ "{" ++ body ++ "}" ++ post) = Some ("{" ++ body ++ "}").
Proof.
  intros Hpre Hpost. induction pre as [|x pre IH].
  - change ("" ++ "{" ++ body ++ "}" ++ post)
      with (String "{" (body ++ "}" ++ post)).
    cbn [match_braces]. change (is_char 123 "{") with true. cbv iota.
    now rewrite (star_then_rbrace_body body post Hpost).
  - cbn [has_char] in Hpre. apply orb_false_iff in Hpre as [Hx Hp].
    change (String x pre ++ "{" ++ body ++ "}" ++ post)
      with (String x (pre ++ "{" ++ body ++ "}" ++ post)).
    cbn [match_braces]. rewrite is_char_lbrace, Hx. now apply IH.
Qed.

Lemma normalisers_same_candidate s1 s2 st :
  match_braces s1 = match_braces s2 ->
  parseATSResponse (JString s1) st = parseATSResponse (JString s2) st
  /\ parseAdaptationResponse (JString s1) st
     = parseAdaptationResponse (JString s2) st.
Proof.
  intros H.
  cbv [parseATSResponse parseAdaptationResponse try_catch bind String_match ret].
  now rewrite H.
Qed.

(** X1: text before the payload that holds no opening brace and text
    after it that holds no closing brace are ignored: the normalisers
    return for the whole reply what they return for the text from the
    brace to the brace. *)
Theorem X1_prose_around_payload_ignored pre body post st :
  has_char "{" pre = false ->
  has_char "}" post = false ->
  match_braces (pre ++ "{" ++ body ++ "}" ++ post) = Some ("{" ++ body ++ "}")
  /\ parseATSResponse (JString (pre ++ "{" ++ body ++ "}" ++ post)) st
     = parseATSResponse (JString ("{" ++ body ++ "}")) st
  /\ parseAdaptationResponse (JString (pre ++ "{" ++ body ++ "}" ++ post)) st
     = parseAdaptationResponse (JString ("{" ++ body ++ "}")) st.
Proof.
  intros Hpre Hpost.
  assert (H := match_braces_around pre body post Hpre Hpost).
  split; [exact H|].
  apply normalisers_same_candidate. rewrite H.
  assert (H0 := match_braces_around "" body "" eq_refl eq_refl).
  cbn [append] in H0 |- *. now rewrite H0.
Qed.

Lemma X1_prose_around_payload_ignored_witness :
  has_char "{" "Sure! " = false
  /\ has_char "}" " Hope this helps." = false
  /\ match_braces ("Sure! " ++ "{" ++ q "score" ++ ": 87" ++ "}" ++ " Hope this helps.")
     = Some ("{" ++ q "score" ++ ": 87" ++ "}")
  /\ parseATSResponse
       (JString ("Sure! " ++ "{" ++ q "score" ++ ": 87" ++ "}" ++ " Hope this helps."))
       initial
     = parseATSResponse (JString ("{" ++ q "score" ++ ": 87" ++ "}")) initial
  /\ parseAdaptationResponse
       (JString ("Sure! " ++ "{" ++ q "score" ++ ": 87" ++ "}" ++ " Hope this helps."))
       initial
     = parseAdaptationResponse (JString ("{" ++ q "score" ++ ": 87" ++ "}")) initial.
Proof.
  split; [reflexivity|]. split; [reflexivity|].
  apply (X1_prose_around_payload_ignored "Sure! " (q "score" ++ ": 87")
           " Hope this helps." initial); reflexivity.
Defined.

(** ** Replies that are not usable *)

Lemma parseATSResponse_non_string v st :
  is_string v = false ->
  parseATSResponse v st =
  (Normal ats_fallback,
   {| config := config st;
      trace := trace st ++ [ConsoleError "Error parsing ATS response:" TypeError] |}).
Proof. destruct v; try discriminate; reflexivity. Qed.

Lemma parseAdaptationResponse_non_string v st :
  is_string v = false ->
  parseAdaptationResponse v st =
  (Normal adaptation_fallback,
   {| config := config st;
      trace := trace st
               ++ [ConsoleError "Error parsing adaptation response:" TypeError;
                   RenderCall (JString "")] |}).
Proof.
  destruct v; try discriminate; intros _;
    cbv [parseAdaptationResponse try_catch bind String_match throw console_error
         log call_generateDefaultLaTeX ret config trace adaptation_fallback];
    now rewrite <- app_assoc.
Qed.

(** The text to render is not a string: the renderer throws, and the
    payload is given up for the fallback record. *)
Lemma parseAdaptationResponse_unrenderable response ms st :
  payload response = Some (JObject ms) ->
  ToBoolean (own ms "latexCode") = false ->
  is_string (or_else (own ms "adaptedCV") (JString "")) = false ->
  parseAdaptationResponse (JString response) st =
  (Normal adaptation_fallback,
   {| config := config st;
      trace := trace st
               ++ [RenderCall (or_else (own ms "adaptedCV") (JString ""));
                   ConsoleError "Error parsing adaptation response:" TypeError;
                   RenderCall (JString "")] |}).
Proof.
  intros H Hf Ha. apply payload_candidate in H as (c & Hm & Hp).
  run_normaliser Hm Hp. rewrite Hf.
  cbv [call_generateDefaultLaTeX bind log].
  destruct (or_else (own ms "adaptedCV") (JString "")); try discriminate;
    cbv [throw console_error log bind ret config trace adaptation_fallback];
    now rewrite <- !app_assoc.
Qed.

(** X2: a reply that is not a string at run time (a [null] content, a
    number, an object) is absorbed: both normalisers return their
    fallback records and write one line to the console. *)
Theorem X2_non_string_reply_falls_back v st :
  is_string v = false ->
  fst (parseATSResponse v st) = Normal ats_fallback
  /\ fst (parseAdaptationResponse v st) = Normal adaptation_fallback
  /\ console_errors (snd (parseATSResponse v st)) = S (console_errors st)
  /\ console_errors (snd (parseAdaptationResponse v st)) = S (console_errors st).
Proof.
  intros H.
  rewrite (parseATSResponse_non_string v st H),
    (parseAdaptationResponse_non_string v st H).
  unfold console_errors. cbn [fst snd trace].
  rewrite !filter_app, !length_app. cbn. repeat split; lia.
Qed.

Lemma X2_non_string_reply_falls_back_witness :
  is_string JNull = false
  /\ fst (parseATSResponse JNull initial) = Normal ats_fallback
  /\ fst (parseAdaptationResponse JNull initial) = Normal adaptation_fallback
  /\ console_errors (snd (parseATSResponse JNull initial))
     = S (console_errors initial)
  /\ console_errors (snd (parseAdaptationResponse JNull initial))
     = S (console_errors initial).
Proof.
  split; [reflexivity|].
  apply (X2_non_string_reply_falls_back JNull initial). reflexivity.
Defined.

(** X3: when the payload has no usable [latexCode] and its [adaptedCV]
    is truthy but not a string, the renderer throws on it and the whole
    payload is given up: the result is the fallback record, whatever
    [changes] and [highlightedSkills] the payload has. *)
Theorem X3_unrenderable_text_discards_payload response ms st :
  payload response = Some (JObject ms) ->
  ToBoolean (own ms "latexCode") = false ->
  is_string (or_else (own ms "adaptedCV") (JString "")) = false ->
  fst (parseAdaptationResponse (JString response) st) = Normal adaptation_fallback
  /\ renders (snd (parseAdaptationResponse (JString response) st))
     = S (S (renders st))
  /\ console_errors (snd (parseAdaptationResponse (JString response) st))
     = S (console_errors st).
Proof.
  intros H Hf Ha.
  rewrite (parseAdaptationResponse_unrenderable response ms st H Hf Ha).
  unfold renders, console_errors. cbn [fst snd trace].
  rewrite !filter_app, !length_app. cbn. repeat split; lia.
Qed.

Lemma X3_unrenderable_text_discards_payload_witness :
  payload reply_numeric_text = Some (JObject members_numeric_text)
  /\ ToBoolean (own members_numeric_text "latexCode") = false
  /\ is_string (or_else (own members_numeric_text "adaptedCV") (JString "")) = false
  /\ fst (parseAdaptationResponse (JString reply_numeric_text) initial)
     = Normal adaptation_fallback
  /\ renders (snd (parseAdaptationResponse (JString reply_numeric_text) initial))
     = S (S (renders initial))
  /\ console_errors (snd (parseAdaptationResponse (JString reply_numeric_text) initial))
     = S (console_errors initial).
Proof.
  split; [vm_compute; reflexivity|]. split; [reflexivity|]. split; [reflexivity|].
  apply (X3_unrenderable_text_discards_payload reply_numeric_text
           members_numeric_text initial);
    vm_compute; reflexivity.
Defined.

(** ** What every result of the normalisers satisfies *)

Lemma generateDefaultLaTeX_truthy s :
  ToBoolean (JString (generateDefaultLaTeX s)) = true.
Proof. reflexivity. Qed.

Lemma truthy_not_nullish v : ToBoolean v = true -> is_nullish v = false.
Proof. now destruct v. Qed.

Lemma field_or_nullish ms name d :
  is_nullish d = false -> is_nullish (field_or is_nullish ms name d) = false.
Proof.
  intros Hd. unfold field_or. destruct (lookup name ms) as [v|]; [|exact Hd].
  destruct (is_nullish v) eqn:E; [exact Hd | exact E].
Qed.

Lemma field_or_falsy ms name d :
  is_nullish d = false -> is_nullish (field_or falsy ms name d) = false.
Proof.
  intros Hd. unfold field_or, falsy. destruct (lookup name ms) as [v|]; [|exact Hd].
  destruct (ToBoolean v) eqn:E; [now apply truthy_not_nullish | exact Hd].
Qed.

(** The four ways [parseAdaptationResponse] ends, by its argument. *)
Lemma parseAdaptationResponse_cases v st :
  (exists st', parseAdaptationResponse v st = (Normal adaptation_fallback, st'))
  \/ (exists response ms st',
        v = JString response
        /\ payload response = Some (JObject ms)
        /\ parseAdaptationResponse v st =
           (Normal {| adaptedCV := field_or falsy ms "adaptedCV" (JString "");
                      latexCode :=
                        if ToBoolean (own ms "latexCode") then own ms "latexCode"
                        else JString
                               (generateDefaultLaTeX
                                  match or_else (own ms "adaptedCV") (JString "") with
                                  | JString text => text
                                  | _ => ""
                                  end);
                      changes := field_or falsy ms "changes" (JArray []);
                      highlightedSkills :=
                        field_or falsy ms "highlightedSkills" (JArray []) |},
            st')).
Proof.
  destruct (is_string v) eqn:Hv.
  2:{ left. rewrite (parseAdaptationResponse_non_string v st Hv). eauto. }
  destruct v as [| | | |response| |]; try discriminate.
  destruct (payload response) as [parsed|] eqn:Hp.
  2:{ left. destruct (parseAdaptationResponse_fallback response st Hp) as [e ->].
      eauto. }
  destruct (payload_object response parsed Hp) as [ms ->].
  destruct (ToBoolean (own ms "latexCode")) eqn:Ht.
  { right. exists response, ms, st. split; [reflexivity|]. split; [exact Hp|].
    now rewrite (parseAdaptationResponse_supplied response ms st Hp Ht), Ht. }
  destruct (or_else (own ms "adaptedCV") (JString "")) as [| | | |text| |] eqn:Ha.
  5:{ right. exists response, ms. eexists. split; [reflexivity|]. split; [exact Hp|].
      now rewrite (parseAdaptationResponse_rendered response ms text st Hp Ht Ha),
        Ht, Ha. }
  all: left;
    rewrite (parseAdaptationResponse_unrenderable response ms st Hp Ht)
      by (now rewrite Ha);
    eauto.
Qed.

Lemma parseATSResponse_cases v st :
  (exists st', parseATSResponse v st = (Normal ats_fallback, st'))
  \/ (exists response ms,
        v = JString response
        /\ payload response = Some (JObject ms)
        /\ parseATSResponse v st =
           (Normal {| isATSFormat := field_or is_nullish ms "isATSFormat" (JBool false);
                      score := field_or is_nullish ms "score" (num 0);
                      issues := field_or is_nullish ms "issues" (JArray []);
                      suggestions := field_or is_nullish ms "suggestions" (JArray []) |},
            st)).
Proof.
  destruct (is_string v) eqn:Hv.
  2:{ left. rewrite (parseATSResponse_non_string v st Hv). eauto. }
  destruct v as [| | | |response| |]; try discriminate.
  destruct (payload response) as [parsed|] eqn:Hp.
  2:{ left. destruct (parseATSResponse_fallback response st Hp) as [e ->]. eauto. }
  destruct (payload_object response parsed Hp) as [ms ->].
  right. exists response, ms. split; [reflexivity|]. split; [exact Hp|].
  apply parseATSResponse_decoded. exact Hp.
Qed.

Lemma parseAdaptationResponse_latexCode_truthy v st :
  exists r st',
    parseAdaptationResponse v st = (Normal r, st')
    /\ ToBoolean (latexCode r) = true.
Proof.
  destruct (parseAdaptationResponse_cases v st)
    as [[st' ->] | (response & ms & st' & _ & _ & ->)];
    do 2 eexists; (split; [reflexivity|]); cbn [latexCode].
  - reflexivity.
  - destruct (ToBoolean (own ms "latexCode")) eqn:E; [exact E | reflexivity].
Qed.

(** X4: the [latexCode] of every result of [parseAdaptationResponse] is
    truthy: it is never absent, [null] or the empty string, whatever
    the reply. *)
Theorem X4_latexCode_always_truthy v st :
  exists r st',
    parseAdaptationResponse v st = (Normal r, st')
    /\ ToBoolean (latexCode r) = true.
Proof. apply parseAdaptationResponse_latexCode_truthy. Qed.

(** X5: no field of a result of either normaliser is [null] or
    [undefined], whatever the reply: a missing list is the empty list,
    never absent. *)
Theorem X5_no_field_null_or_undefined v st :
  (exists r st',
     parseATSResponse v st = (Normal r, st')
     /\ is_nullish (isATSFormat r) = false
     /\ is_nullish (score r) = false
     /\ is_nullish (issues r) = false
     /\ is_nullish (suggestions r) = false)
  /\ (exists r st',
        parseAdaptationResponse v st = (Normal r, st')
        /\ is_nullish (adaptedCV r) = false
        /\ is_nullish (latexCode r) = false
        /\ is_nullish (changes r) = false
        /\ is_nullish (highlightedSkills r) = false).
Proof.
  split.
  - destruct (parseATSResponse_cases v st)
      as [[st' ->] | (response & ms & _ & _ & ->)];
      do 2 eexists; (split; [reflexivity|]); cbn;
      repeat split; try reflexivity; now apply field_or_nullish.
  - destruct (parseAdaptationResponse_cases v st)
      as [[st' ->] | (response & ms & st' & _ & _ & ->)];
      do 2 eexists; (split; [reflexivity|]);
      cbn [adaptedCV latexCode changes highlightedSkills adaptation_fallback];
      repeat split; try reflexivity; try (now apply field_or_falsy).
    destruct (ToBoolean (own ms "latexCode")) eqn:E;
      [now apply truthy_not_nullish | reflexivity].
Qed.

(** X6: [parseATSResponse] writes to the console exactly when it gives
    up: once when the reply has no payload that decodes, not at all
    when it has one. *)
Theorem X6_console_error_only_on_fallback response st :
  console_errors (snd (parseATSResponse (JString response) st))
  = console_errors st + match payload response with Some _ => 0 | None => 1 end.
Proof.
  destruct (payload response) as [parsed|] eqn:Hp.
  - destruct (payload_object response parsed Hp) as [ms ->].
    rewrite (parseATSResponse_decoded response ms st Hp). cbn [snd]. lia.
  - destruct (parseATSResponse_fallback response st Hp) as [e ->].
    unfold console_errors. cbn [snd trace].
    rewrite filter_app, length_app. cbn. lia.
Qed.

(** ** Further properties of the escaping step *)

Lemma length_append (a b : string) :
  String.length (a ++ b) = String.length a + String.length b.
Proof. induction a as [|x a IH]; simpl; [reflexivity | now rewrite IH]. Qed.

Lemma escaped_char_plain c :
  is_special c = false -> escaped_char c = String c "".
Proof. each_ascii c; intros H; try discriminate H; reflexivity. Qed.

Lemma escaped_char_length c :
  (if is_special c then 2 else 1) <= String.length (escaped_char c).
Proof. each_ascii c; cbn; lia. Qed.

Lemma escapedText_length s :
  String.length s <= String.length (escapedText s)
  /\ (plain s = false -> String.length s < String.length (escapedText s)).
Proof.
  rewrite escapedText_single_pass.
  induction s as [|c s [IH1 IH2]]; [cbn; split; [lia | discriminate]|].
  cbn [single_pass plain String.length]. rewrite length_append.
  assert (H := escaped_char_length c).
  destruct (is_special c); cbn [negb andb]; split; try lia.
  intros Hp. specialize (IH2 Hp). lia.
Qed.

(** X7: the escaping step returns a text unchanged exactly when the
    text holds none of the ten characters it replaces. *)
Theorem X7_plain_text_unchanged s : escapedText s = s <-> plain s = true.
Proof.
  split.
  - intros H. destruct (plain s) eqn:E; [reflexivity|].
    apply (proj2 (escapedText_length s)) in E. rewrite H in E. lia.
  - rewrite escapedText_single_pass.
    induction s as [|c s IH]; [reflexivity|].
    cbn [plain single_pass]. intros H.
    apply andb_true_iff in H as [Hc Hs]. apply negb_true_iff in Hc.
    now rewrite (escaped_char_plain c Hc), (IH Hs).
Qed.

Lemma always_after_backslash_app c a : forall p b,
  a <> "" ->
  ends_with_backslash a = false ->
  always_after_backslash c p (a ++ b)
  = always_after_backslash c p a && always_after_backslash c false b.
Proof.
  induction a as [|x a IH]; intros p b Hne He; [contradiction|].
  destruct a as [|y a].
  - cbn [ends_with_backslash] in He. cbn [append always_after_backslash].
    now rewrite He, andb_true_r.
  - change (String x (String y a) ++ b) with (String x (String y a ++ b)).
    cbn [always_after_backslash].
    rewrite (IH (Ascii.eqb x backslash) b); [|discriminate | exact He].
    now rewrite andb_assoc.
Qed.

Lemma has_char_app c a b : has_char c (a ++ b) = has_char c a || has_char c b.
Proof.
  induction a as [|x a IH]; [reflexivity|].
  cbn [append has_char]. now rewrite IH, orb_assoc.
Qed.

Lemma escaped_char_nonempty x : escaped_char x <> "".
Proof. each_ascii x; discriminate. Qed.

Lemma escaped_char_guarded x :
  always_after_backslash "#" false (escaped_char x) = true
  /\ always_after_backslash "$" false (escaped_char x) = true
  /\ always_after_backslash "%" false (escaped_char x) = true
  /\ always_after_backslash "&" false (escaped_char x) = true
  /\ always_after_backslash "_" false (escaped_char x) = true
  /\ has_char "^" (escaped_char x) = false
  /\ has_char "~" (escaped_char x) = false.
Proof. each_ascii x; repeat split. Qed.

(** X8: in an escaped text every [#], [$], [%], [&] and [_] comes right
    after a backslash, and there is no [^] and no [~] at all. *)
Theorem X8_special_characters_escaped s :
  always_after_backslash "#" false (escapedText s) = true
  /\ always_after_backslash "$" false (escapedText s) = true
  /\ always_after_backslash "%" false (escapedText s) = true
  /\ always_after_backslash "&" false (escapedText s) = true
  /\ always_after_backslash "_" false (escapedText s) = true
  /\ has_char "^" (escapedText s) = false
  /\ has_char "~" (escapedText s) = false.
Proof.
  rewrite escapedText_single_pass.
  induction s as [|x s IH]; [repeat split|].
  destruct IH as (I1 & I2 & I3 & I4 & I5 & I6 & I7).
  destruct (escaped_char_guarded x) as (H1 & H2 & H3 & H4 & H5 & H6 & H7).
  assert (Hne := escaped_char_nonempty x).
  assert (He := proj2 (escaped_char_shape x)).
  cbn [single_pass].
  rewrite !always_after_backslash_app, !has_char_app by assumption.
  rewrite H1, H2, H3, H4, H5, H6, H7, I1, I2, I3, I4, I5, I6, I7.
  repeat split.
Qed.

Lemma read_escaped_char c r : read_escaped (escaped_char c ++ r) = Some (c, r).
Proof. each_ascii c; reflexivity. Qed.

Lemma single_pass_escaped_injective a : forall b,
  single_pass escaped_char a = single_pass escaped_char b -> a = b.
Proof.
  induction a as [|x a IH]; intros [|y b] H; cbn [single_pass] in H.
  - reflexivity.
  - apply (f_equal read_escaped) in H. rewrite read_escaped_char in H.
    discriminate H.
  - apply (f_equal read_escaped) in H. rewrite read_escaped_char in H.
    discriminate H.
  - apply (f_equal read_escaped) in H. rewrite !read_escaped_char in H.
    inversion H; subst. f_equal. now apply IH.
Qed.

(** X9: the escaping step loses nothing: two texts with the same
    escaped text are the same text. *)
Theorem X9_escaping_injective a b : escapedText a = escapedText b -> a = b.
Proof.
  rewrite !escapedText_single_pass. apply single_pass_escaped_injective.
Qed.

Lemma X9_escaping_injective_witness :
  escapedText "50% of $100" = escapedText "50% of $100"
  /\ "50% of $100" = "50% of $100".
Proof.
  split; [reflexivity|].
  apply (X9_escaping_injective "50% of $100" "50% of $100"). reflexivity.
Defined.

(** X10: escaping a text in pieces and joining the results is escaping
    the whole text; and the escaped text is at least as long as the
    text and at most eighteen times as long. *)
Theorem X10_escaping_piecewise a b :
  escapedText (a ++ b) = escapedText a ++ escapedText b
  /\ String.length a <= String.length (escapedText a)
  /\ String.length (escapedText a) <= 18 * String.length a.
Proof.
  split; [apply escapedText_app|]. split; [apply escapedText_length|].
  rewrite escapedText_single_pass.
  induction a as [|x a IH]; [cbn; lia|].
  cbn [single_pass String.length]. rewrite length_append.
  assert (H : String.length (escaped_char x) <= 18) by (each_ascii x; cbn; lia).
  lia.
Qed.

(** ** Further properties of the transports *)

Lemma requests_app a b : requests (a ++ b) = (requests a ++ requests b)%list.
Proof.
  induction a as [|e a IH]; [reflexivity|].
  destruct e; cbn [app requests]; now rewrite IH.
Qed.

Lemma keeps_requests_log e : is_post e = false -> keeps requests_of (log e).
Proof.
  intros H st. unfold requests_of, log. cbn [snd trace].
  rewrite requests_app. destruct e; try discriminate; cbn; now rewrite app_nil_r.
Qed.

Lemma keeps_requests_console_error label error :
  keeps requests_of (console_error label error).
Proof. now apply keeps_requests_log. Qed.

Lemma keeps_requests_call_generateDefaultLaTeX cvText :
  keeps requests_of (call_generateDefaultLaTeX cvText).
Proof.
  unfold call_generateDefaultLaTeX. apply keeps_bind.
  - now apply keeps_requests_log.
  - intros _. frame.
Qed.

Lemma keeps_console_log e : is_console e = false -> keeps console_errors (log e).
Proof.
  intros H st. unfold console_errors, log. cbn [snd trace].
  rewrite filter_app. cbn [filter]. rewrite H. now rewrite app_nil_r.
Qed.

#[local] Hint Resolve keeps_requests_console_error
  keeps_requests_call_generateDefaultLaTeX : frame.

Lemma keeps_requests_parseATSResponse response :
  keeps requests_of (parseATSResponse response).
Proof. unfold parseATSResponse. frame. Qed.

Lemma keeps_requests_parseAdaptationResponse response :
  keeps requests_of (parseAdaptationResponse response).
Proof. unfold parseAdaptationResponse. frame. Qed.

Lemma get_member o name st :
  get o name st =
  match member name o with
  | Some v => (Normal v, st)
  | None => (Throw TypeError, st)
  end.
Proof. now destruct o. Qed.

Lemma get_index0_element0 o st :
  get_index0 o st =
  match element0 o with
  | Some v => (Normal v, st)
  | None => (Throw TypeError, st)
  end.
Proof. now destruct o. Qed.

Ltac finish E := cbv [throw ret]; rewrite ?E; reflexivity.

Section TransportRuns.

Variable network : list Event -> Request -> AxiosOutcome.
Variable native_message : exn -> string.
Variable Number_toString : spec_float -> string.

Lemma callAPI_run cfg prompt st :
  config st = Some cfg ->
  callAPI network native_message Number_toString prompt st =
  (transport_result native_message Number_toString cfg
     (network (trace st) (request_for cfg prompt)),
   {| config := config st;
      trace := trace st ++ [AxiosPost (request_for cfg prompt)] |}).
Proof.
  intros E. unfold callAPI. rewrite bind_this_config, E.
  unfold request_for, transport_result, reply_of, error_prefix.
  destruct (provider cfg).
  - unfold callOpenAI. rewrite bind_this_config, E.
    unfold try_catch, bind, axios_post.
    destruct (network (trace st) (openai_request cfg prompt)) as [data|rd msg];
      [|destruct (ToString Number_toString
                   (error_detail native_message (AxiosError rd msg)));
        finish E].
    rewrite get_member. destruct (member "choices" data) as [v1|]; [|finish E].
    cbn [and_then]. rewrite get_index0_element0.
    destruct (element0 v1) as [v2|]; [|finish E].
    cbn [and_then]. rewrite get_member.
    destruct (member "message" v2) as [v3|]; [|finish E].
    cbn [and_then]. rewrite get_member.
    destruct (member "content" v3) as [v4|]; finish E.
  - unfold callClaude. rewrite bind_this_config, E.
    unfold try_catch, bind, axios_post.
    destruct (network (trace st) (claude_request cfg prompt)) as [data|rd msg];
      [|destruct (ToString Number_toString
                   (error_detail native_message (AxiosError rd msg)));
        finish E].
    rewrite get_member. destruct (member "content" data) as [v1|]; [|finish E].
    cbn [and_then]. rewrite get_index0_element0.
    destruct (element0 v1) as [v2|]; [|finish E].
    cbn [and_then]. rewrite get_member.
    destruct (member "text" v2) as [v3|]; finish E.
Qed.

Lemma checkATSFormat_run cfg cvText st :
  config st = Some cfg ->
  checkATSFormat network native_message Number_toString cvText st =
  bind (callAPI network native_message Number_toString (ats_prompt cvText))
    parseATSResponse st.
Proof. intros E. unfold checkATSFormat. now rewrite bind_this_config, E. Qed.

Lemma adaptCVToJob_run cfg cvText jobDescription st :
  config st = Some cfg ->
  adaptCVToJob network native_message Number_toString cvText jobDescription st =
  bind (callAPI network native_message Number_toString
          (adaptation_prompt cvText jobDescription))
    parseAdaptationResponse st.
Proof. intros E. unfold adaptCVToJob. now rewrite bind_this_config, E. Qed.

End TransportRuns.

Lemma requests_of_post st rq :
  requests_of {| config := config st; trace := trace st ++ [AxiosPost rq] |}
  = (requests_of st ++ [rq])%list.
Proof. unfold requests_of. cbn [trace]. now rewrite requests_app. Qed.

Lemma console_errors_post st rq :
  console_errors {| config := config st; trace := trace st ++ [AxiosPost rq] |}
  = console_errors st.
Proof.
  unfold console_errors. cbn [trace]. rewrite filter_app. cbn.
  now rewrite app_nil_r.
Qed.

(** X11: after [setConfig], a call of [checkATSFormat] or [adaptCVToJob]
    sends exactly one request: to the endpoint of the provider just
    configured, with the credential in that provider's header and the
    prompt built from the arguments; an earlier configuration plays no
    part. *)
Theorem X11_one_request_to_configured_provider
  (network : list Event -> Request -> AxiosOutcome)
  (native_message : exn -> string) (Number_toString : spec_float -> string)
  (cfg : APIProviderConfig) (st : State) (cvText jobDescription : string) :
  let st1 := snd (setConfig cfg st) in
  requests_of (snd (checkATSFormat network native_message Number_toString cvText st1))
  = (requests_of st ++ [request_for cfg (ats_prompt cvText)])%list
  /\ requests_of (snd (adaptCVToJob network native_message Number_toString
                         cvText jobDescription st1))
     = (requests_of st
        ++ [request_for cfg (adaptation_prompt cvText jobDescription)])%list
  /\ (forall prompt,
        url (request_for cfg prompt) = endpoint (provider cfg)
        /\ In (credential_header cfg) (headers (request_for cfg prompt))).
Proof.
  intros st1.
  assert (E : config st1 = Some cfg) by reflexivity.
  assert (R : requests_of st1 = requests_of st) by reflexivity.
  split; [|split].
  - rewrite (checkATSFormat_run _ _ _ cfg cvText st1 E). unfold bind.
    rewrite (callAPI_run _ _ _ cfg _ st1 E).
    destruct (transport_result _ _ _ _) as [v|e]; cbn [snd].
    + now rewrite keeps_requests_parseATSResponse, requests_of_post, R.
    + now rewrite requests_of_post, R.
  - rewrite (adaptCVToJob_run _ _ _ cfg cvText jobDescription st1 E). unfold bind.
    rewrite (callAPI_run _ _ _ cfg _ st1 E).
    destruct (transport_result _ _ _ _) as [v|e]; cbn [snd].
    + now rewrite keeps_requests_parseAdaptationResponse, requests_of_post, R.
    + now rewrite requests_of_post, R.
  - intros prompt. unfold request_for, credential_header.
    destruct (provider cfg); cbn; auto.
Qed.

(** X12: when the provider answers and the reply can be read out of
    the response ([data.choices[0].message.content] for OpenAI,
    [data.content[0].text] for Claude), the result of the operation is
    what the normaliser returns for that reply. *)
Theorem X12_result_is_normalised_reply
  (network : list Event -> Request -> AxiosOutcome)
  (native_message : exn -> string) (Number_toString : spec_float -> string)
  (cfg : APIProviderConfig) (st : State) (cvText jobDescription : string)
  (data v : JSValue) :
  config st = Some cfg ->
  (forall rq, network (trace st) rq = Resolved data) ->
  reply_of cfg data = Some v ->
  fst (checkATSFormat network native_message Number_toString cvText st)
  = fst (parseATSResponse v st)
  /\ fst (adaptCVToJob network native_message Number_toString
            cvText jobDescription st)
     = fst (parseAdaptationResponse v st).
Proof.
  intros E Hn Hr. split.
  - rewrite (checkATSFormat_run _ _ _ cfg cvText st E). unfold bind.
    rewrite (callAPI_run _ _ _ cfg _ st E), Hn. cbn [transport_result].
    rewrite Hr. apply si_parseATSResponse.
  - rewrite (adaptCVToJob_run _ _ _ cfg cvText jobDescription st E). unfold bind.
    rewrite (callAPI_run _ _ _ cfg _ st E), Hn. cbn [transport_result].
    rewrite Hr. apply si_parseAdaptationResponse.
Qed.

Lemma X12_result_is_normalised_reply_witness :
  config configured = Some openai_config
  /\ (forall rq,
        answering (JString reply_isATSFormat) (trace configured) rq
        = Resolved (completion (JString reply_isATSFormat)))
  /\ reply_of openai_config (completion (JString reply_isATSFormat))
     = Some (JString reply_isATSFormat)
  /\ fst (checkATSFormat (answering (JString reply_isATSFormat))
            no_message no_digits "my cv" configured)
     = fst (parseATSResponse (JString reply_isATSFormat) configured)
  /\ fst (adaptCVToJob (answering (JString reply_isATSFormat))
            no_message no_digits "my cv" "a job" configured)
     = fst (parseAdaptationResponse (JString reply_isATSFormat) configured).
Proof.
  split; [reflexivity|]. split; [reflexivity|]. split; [reflexivity|].
  apply (X12_result_is_normalised_reply
           (answering (JString reply_isATSFormat)) no_message no_digits
           openai_config configured "my cv" "a job"
           (completion (JString reply_isATSFormat)) (JString reply_isATSFormat));
    reflexivity.
Defined.

(** X13: when the provider answers but the reply cannot be read out of
    the response (a property is read on [undefined] or [null]), the
    operation fails with the provider's prefix followed by the engine's
    message for the [TypeError]; the normaliser is not run. *)
Theorem X13_unreadable_response_is_provider_error
  (network : list Event -> Request -> AxiosOutcome)
  (native_message : exn -> string) (Number_toString : spec_float -> string)
  (cfg : APIProviderConfig) (st : State) (cvText jobDescription : string)
  (data : JSValue) :
  config st = Some cfg ->
  (forall rq, network (trace st) rq = Resolved data) ->
  reply_of cfg data = None ->
  checkATSFormat network native_message Number_toString cvText st
  = (Throw (Error (error_prefix cfg ++ native_message TypeError)),
     {| config := config st;
        trace := trace st ++ [AxiosPost (request_for cfg (ats_prompt cvText))] |})
  /\ adaptCVToJob network native_message Number_toString cvText jobDescription st
     = (Throw (Error (error_prefix cfg ++ native_message TypeError)),
        {| config := config st;
           trace := trace st
                    ++ [AxiosPost
                          (request_for cfg
                             (adaptation_prompt cvText jobDescription))] |}).
Proof.
  intros E Hn Hr. split.
  - rewrite (checkATSFormat_run _ _ _ cfg cvText st E). unfold bind.
    rewrite (callAPI_run _ _ _ cfg _ st E), Hn. cbn [transport_result].
    now rewrite Hr.
  - rewrite (adaptCVToJob_run _ _ _ cfg cvText jobDescription st E). unfold bind.
    rewrite (callAPI_run _ _ _ cfg _ st E), Hn. cbn [transport_result].
    now rewrite Hr.
Qed.

Lemma X13_unreadable_response_is_provider_error_witness :
  config configured = Some openai_config
  /\ (forall rq, answering_nothing (trace configured) rq = Resolved (JObject []))
  /\ reply_of openai_config (JObject []) = None
  /\ checkATSFormat answering_nothing no_message no_digits "my cv" configured
     = (Throw (Error (error_prefix openai_config ++ no_message TypeError)),
        {| config := config configured;
           trace := trace configured
                    ++ [AxiosPost (request_for openai_config (ats_prompt "my cv"))] |})
  /\ adaptCVToJob answering_nothing no_message no_digits "my cv" "a job" configured
     = (Throw (Error (error_prefix openai_config ++ no_message TypeError)),
        {| config := config configured;
           trace := trace configured
                    ++ [AxiosPost
                          (request_for openai_config
                             (adaptation_prompt "my cv" "a job"))] |}).
Proof.
  split; [reflexivity|]. split; [reflexivity|]. split; [reflexivity|].
  apply (X13_unreadable_response_is_provider_error
           answering_nothing no_message no_digits
           openai_config configured "my cv" "a job" (JObject []));
    reflexivity.
Defined.

Lemma transport_result_rejected native_message Number_toString cfg rd msg :
  exists e,
    transport_result native_message Number_toString cfg (Rejected rd msg) = Throw e
    /\ (rd = None -> e = Error (error_prefix cfg ++ msg))
    /\ (forall ds es m,
          rd = Some (JObject ds) ->
          own ds "error" = JObject es ->
          own es "message" = JString m ->
          m <> "" ->
          e = Error (error_prefix cfg ++ m)).
Proof.
  cbn [transport_result].
  destruct (ToString Number_toString
              (error_detail native_message (AxiosError rd msg))) as [d|] eqn:T;
    eexists; (split; [reflexivity|]); split.
  - intros ->. cbn in T. now inversion T.
  - intros ds es m -> He Hm Hne. unfold error_detail in T.
    cbn [get_optional] in T. rewrite He in T. cbn [get_optional] in T.
    rewrite Hm in T. unfold or_else in T. cbn [ToBoolean] in T.
    destruct (String.eqb_spec m ""); [contradiction|]. cbn in T. now inversion T.
  - intros ->. cbn in T. discriminate T.
  - intros ds es m -> He Hm Hne. unfold error_detail in T.
    cbn [get_optional] in T. rewrite He in T. cbn [get_optional] in T.
    rewrite Hm in T. unfold or_else in T. cbn [ToBoolean] in T.
    destruct (String.eqb_spec m ""); [contradiction|]. cbn in T. discriminate T.
Qed.

(** X14: when the request fails, the operation fails with the
    provider's prefix followed by the message of the error response,
    [response.data.error.message], when that is a non-empty string, and
    by the message of the transport error when there is no response;
    the normaliser is not run and nothing is written to the console. *)
Theorem X14_transport_failure_message
  (network : list Event -> Request -> AxiosOutcome)
  (native_message : exn -> string) (Number_toString : spec_float -> string)
  (cfg : APIProviderConfig) (st : State) (cvText jobDescription : string)
  (response_data : option JSValue) (message : string) :
  config st = Some cfg ->
  (forall rq, network (trace st) rq = Rejected response_data message) ->
  let check := checkATSFormat network native_message Number_toString cvText st in
  let adapt :=
    adaptCVToJob network native_message Number_toString cvText jobDescription st in
  (response_data = None ->
   fst check = Throw (Error (error_prefix cfg ++ message))
   /\ fst adapt = Throw (Error (error_prefix cfg ++ message)))
  /\ (forall ds es m,
        response_data = Some (JObject ds) ->
        own ds "error" = JObject es ->
        own es "message" = JString m ->
        m <> "" ->
        fst check = Throw (Error (error_prefix cfg ++ m))
        /\ fst adapt = Throw (Error (error_prefix cfg ++ m)))
  /\ console_errors (snd check) = console_errors st
  /\ console_errors (snd adapt) = console_errors st.
Proof.
  intros E Hn check adapt. subst check adapt.
  rewrite (checkATSFormat_run _ _ _ cfg cvText st E).
  rewrite (adaptCVToJob_run _ _ _ cfg cvText jobDescription st E).
  unfold bind. rewrite !(callAPI_run _ _ _ cfg _ st E), !Hn.
  destruct (transport_result_rejected native_message Number_toString cfg
              response_data message) as (e & -> & H1 & H2).
  cbn [fst snd]. split; [|split].
  - intros Hr. rewrite (H1 Hr). split; reflexivity.
  - intros ds es m Hr He Hm Hne. rewrite (H2 ds es m Hr He Hm Hne).
    split; reflexivity.
  - now rewrite !console_errors_post.
Qed.

Lemma X14_transport_failure_message_witness :
  config configured = Some openai_config
  /\ (forall rq, offline (trace configured) rq = Rejected None "Network Error")
  /\ fst (checkATSFormat offline no_message no_digits "my cv" configured)
     = Throw (Error (error_prefix openai_config ++ "Network Error"))
  /\ fst (checkATSFormat refusing no_message no_digits "my cv" configured)
     = Throw (Error (error_prefix openai_config ++ "Incorrect API key provided")).
Proof.
  split; [reflexivity|]. split; [reflexivity|]. split.
  - apply (proj1 (X14_transport_failure_message offline no_message no_digits
                    openai_config configured "my cv" "a job" None "Network Error"
                    eq_refl (fun _ => eq_refl))).
    reflexivity.
  - apply (proj1 (proj2 (X14_transport_failure_message refusing no_message no_digits
                           openai_config configured "my cv" "a job" _ _
                           eq_refl (fun _ => eq_refl)))
             [("error", JObject [("message", JString "Incorrect API key provided")])]
             [("message", JString "Incorrect API key provided")]
             "Incorrect API key provided");
      try reflexivity.
    discriminate.
Defined.

(** ** The handlers of the application component *)



Section HandlerFacts.

Variable network : list Event -> Request -> AxiosOutcome.
Variable native_message : exn -> string.
Variable Number_toString : spec_float -> string.

Lemma handleCheckATS_state ui st :
  snd (App.handleCheckATS network native_message Number_toString ui st)
  = if ready_to_check ui then
      snd (checkATSFormat network native_message Number_toString (App.cvText ui)
             (snd (setConfig (App.apiConfig ui) st)))
    else st.
Proof.
  unfold App.handleCheckATS, ready_to_check.
  destruct (App.blank (App.cvText ui)); [reflexivity|].
  destruct (String.eqb (apiKey (App.apiConfig ui)) ""); [reflexivity|].
  cbn [negb andb].
  now destruct (checkATSFormat _ _ _ _ _) as [[r|e] st2].
Qed.

Lemma handleAdaptCV_state ui st :
  snd (App.handleAdaptCV network native_message Number_toString ui st)
  = if ready_to_adapt ui then
      snd (adaptCVToJob network native_message Number_toString
             (App.cvText ui) (App.jobDescription ui)
             (snd (setConfig (App.apiConfig ui) st)))
    else st.
Proof.
  unfold App.handleAdaptCV, ready_to_adapt.
  destruct (App.blank (App.cvText ui) || App.blank (App.jobDescription ui));
    [reflexivity|].
  destruct (String.eqb (apiKey (App.apiConfig ui)) ""); [reflexivity|].
  cbn [negb andb].
  now destruct (adaptCVToJob _ _ _ _ _ _) as [[r|e] st2].
Qed.



End HandlerFacts.

(** X15: a handler contacts the provider exactly when its guards let
    the call through (the CV, and for the adaptation the job
    description, is not blank and the API key is not empty), and then
    exactly once; otherwise the service is left as it was. *)
Theorem X15_provider_contacted_only_when_ready
  (network : list Event -> Request -> AxiosOutcome)
  (native_message : exn -> string) (Number_toString : spec_float -> string)
  (ui : App.UI) (st : State) :
  posts (snd (App.handleCheckATS network native_message Number_toString ui st))
  = posts st + (if ready_to_check ui then 1 else 0)
  /\ posts (snd (App.handleAdaptCV network native_message Number_toString ui st))
     = posts st + (if ready_to_adapt ui then 1 else 0)
  /\ config (snd (App.handleCheckATS network native_message Number_toString ui st))
     = (if ready_to_check ui then Some (App.apiConfig ui) else config st)
  /\ config (snd (App.handleAdaptCV network native_message Number_toString ui st))
     = (if ready_to_adapt ui then Some (App.apiConfig ui) else config st).
Proof.
  rewrite handleCheckATS_state, handleAdaptCV_state.
  assert (Hset : config (snd (setConfig (App.apiConfig ui) st)) <> None)
    by discriminate.
  assert (P1 := proj2 (checkATSFormat_completion network native_message
                         Number_toString (App.cvText ui) _ Hset)).
  assert (P2 := proj2 (adaptCVToJob_completion network native_message
                         Number_toString (App.cvText ui) (App.jobDescription ui)
                         _ Hset)).
  change (posts (snd (setConfig (App.apiConfig ui) st))) with (posts st) in P1, P2.
  assert (C1 := keeps_config_checkATSFormat network native_message
                  Number_toString (App.cvText ui)
                  (snd (setConfig (App.apiConfig ui) st))).
  assert (C2 := keeps_config_adaptCVToJob network native_message
                  Number_toString (App.cvText ui) (App.jobDescription ui)
                  (snd (setConfig (App.apiConfig ui) st))).
  cbn [setConfig snd config] in C1, C2.
  destruct (ready_to_check ui), (ready_to_adapt ui);
    repeat split; try assumption; lia.
Qed.





(** X18: after a file has been read, on a page that has no assessment
    yet, none of the four panels of the page is rendered: the view is
    the assessment view, which needs an assessment, and the button that
    starts the check is in the upload panel. *)
Theorem X18_upload_without_assessment_shows_no_panel (text : string) (ui : App.UI) :
  App.atsResult ui = None ->
  App.cvText (App.handleFileUpload (Some text) ui) = text
  /\ App.error (App.handleFileUpload (Some text) ui) = None
  /\ App.main_section (App.handleFileUpload (Some text) ui) = None.
Proof.
  intros H. unfold App.handleFileUpload, App.main_section. cbn. now rewrite H.
Qed.

Lemma X18_upload_without_assessment_shows_no_panel_witness :
  App.atsResult App.initial_ui = None
  /\ App.cvText (App.handleFileUpload (Some "my cv") App.initial_ui) = "my cv"
  /\ App.error (App.handleFileUpload (Some "my cv") App.initial_ui) = None
  /\ App.main_section (App.handleFileUpload (Some "my cv") App.initial_ui) = None.
Proof.
  split; [reflexivity|].
  apply (X18_upload_without_assessment_shows_no_panel "my cv" App.initial_ui).
  reflexivity.
Defined.

(** ** The prompts *)

Lemma append_same_length (a b x y : string) :
  String.length a = String.length b -> a ++ x = b ++ y -> a = b /\ x = y.
Proof.
  revert b. induction a as [|c a IH]; intros [|d b] Hl H; try discriminate.
  - now split.
  - cbn in Hl, H. inversion H; subst.
    destruct (IH b) as [-> ->]; auto.
Qed.

Lemma append_cancel_r (a b t : string) : a ++ t = b ++ t -> a = b.
Proof.
  intros H. apply (append_same_length a b t t); [|exact H].
  apply (f_equal String.length) in H. rewrite !length_append in H. lia.
Qed.

Lemma ats_prompt_parts :
  exists tail, forall text, ats_prompt text = ats_head ++ text ++ tail.
Proof. eexists. intros text. reflexivity. Qed.

Lemma adaptation_prompt_parts :
  exists tail, forall cvText jobDescription,
    adaptation_prompt cvText jobDescription
    = adaptation_head ++ cvText ++ adaptation_middle ++ jobDescription ++ tail.
Proof.
  eexists. intros cvText jobDescription.
  unfold adaptation_prompt, adaptation_head, adaptation_middle, unlines.
  cbn [String.concat]. cbn [append].
  rewrite !append_assoc. cbn [append]. reflexivity.
Qed.

(** X19: the prompts carry their texts whole: the prompt of
    [checkATSFormat] is a fixed head, the CV text and a fixed tail, so
    two CV texts with the same prompt are the same text; and the prompt
    of [adaptCVToJob] determines the CV text for a given job
    description, and the job description for a given CV text. *)
Theorem X19_prompts_carry_texts_whole :
  (forall a b, ats_prompt a = ats_prompt b -> a = b)
  /\ (forall a b j, adaptation_prompt a j = adaptation_prompt b j -> a = b)
  /\ (forall c i j, adaptation_prompt c i = adaptation_prompt c j -> i = j)
  /\ (forall cvText,
        String.length (ats_prompt cvText)
        = String.length (ats_prompt "") + String.length cvText).
Proof.
  destruct ats_prompt_parts as [t1 H1].
  destruct adaptation_prompt_parts as [t2 H2].
  split; [|split; [|split]].
  - intros a b H. rewrite !H1 in H.
    apply append_cancel_l in H. now apply append_cancel_r in H.
  - intros a b j H. rewrite !H2 in H.
    apply append_cancel_l in H. now apply append_cancel_r in H.
  - intros c i j H. rewrite !H2 in H.
    do 3 apply append_cancel_l in H. now apply append_cancel_r in H.
  - intros cvText. rewrite !H1, !length_append. cbn [String.length]. lia.
Qed.

Lemma X19_prompts_carry_texts_whole_witness :
  ats_prompt "my cv" = ats_prompt "my cv" /\ "my cv" = "my cv".
Proof.
  split; [reflexivity|].
  apply (proj1 X19_prompts_carry_texts_whole "my cv" "my cv"). reflexivity.
Defined.
